(** * Product intelligence system: query understanding and retrieval pipeline

    A shallow embedding of the Python back end (query_parser.py,
    agents/retriever.py, clarification.py, session_manager.py,
    crew_setup.py and main.py) together with the properties its
    specification states and further properties of the code.

    Modelling conventions.
    - A Python [str] is a [string] holding its UTF-8 bytes.  Substring
      tests on UTF-8 bytes agree with substring tests on code points.
    - [str.lower], [str.upper], the regex classes [\d] and [\s], the
      [re.IGNORECASE] flag and the white space of [str.split] and
      [str.strip] are modelled on the ASCII range; bytes above 127 are
      neither digits nor white space and have no case.
    - A Python exception is the [None] of an [option] result.
    - The embedding service and the vector index, the language-model
      call and [json.loads] are collaborators outside the repository:
      they are section variables. *)

From Stdlib Require Import ZArith Ascii String.
From stdpp Require Import gmap strings list sorting pretty.

Local Open Scope Z_scope.

(** ** Python string primitives *)

Module PyStr.

Definition code (c : ascii) : N := N_of_ascii c.

(** [\d] on the ASCII range. *)
Definition is_digit (c : ascii) : bool :=
  ((48 <=? code c) && (code c <=? 57))%N.

(** [str.isspace] on the ASCII range: TAB, LF, VT, FF, CR, the four
    separators 0x1c-0x1f and the space. *)
Definition is_space (c : ascii) : bool :=
  (((9 <=? code c) && (code c <=? 13)) ||
   ((28 <=? code c) && (code c <=? 32)))%N.

Definition to_lower (c : ascii) : ascii :=
  if ((65 <=? code c) && (code c <=? 90))%N
  then ascii_of_N (code c + 32) else c.

Definition to_upper (c : ascii) : ascii :=
  if ((97 <=? code c) && (code c <=? 122))%N
  then ascii_of_N (code c - 32) else c.

Fixpoint smap (f : ascii → ascii) (s : string) : string :=
  match s with
  | EmptyString => EmptyString
  | String c s' => String (f c) (smap f s')
  end.

(** [s.lower()] and [s.upper()]. *)
Definition lower : string → string := smap to_lower.
Definition upper : string → string := smap to_upper.

(** [s.startswith(p)]. *)
Fixpoint starts_with (p s : string) : bool :=
  match p, s with
  | EmptyString, _ => true
  | String a p', String b s' =>
      if decide (a = b) then starts_with p' s' else false
  | String _ _, EmptyString => false
  end.

(** [p in s] for two strings: [p] occurs in [s] as a substring. *)
Fixpoint contains (p s : string) : bool :=
  starts_with p s ||
  match s with
  | EmptyString => false
  | String _ s' => contains p s'
  end.

(** The longest prefix of [s] whose characters satisfy [f], and the
    rest: what a greedy [c*] consumes. *)
Fixpoint span (f : ascii → bool) (s : string) : string * string :=
  match s with
  | EmptyString => (EmptyString, EmptyString)
  | String c s' =>
      if f c then let '(a, b) := span f s' in (String c a, b)
      else (EmptyString, s)
  end.

Fixpoint drop_while (f : ascii → bool) (s : string) : string :=
  match s with
  | EmptyString => EmptyString
  | String c s' => if f c then drop_while f s' else s
  end.

(** [s.strip()]. *)
Definition strip (s : string) : string :=
  String.rev (drop_while is_space (String.rev (drop_while is_space s))).

(** [s.split()]: the maximal runs of non-space characters. *)
Fixpoint split_go (cur : option string) (s : string) : list string :=
  match s with
  | EmptyString => option_list (String.rev <$> cur)
  | String a s' =>
      if is_space a
      then option_list (String.rev <$> cur) ++ split_go None s'
      else split_go (Some (String a (default EmptyString cur))) s'
  end.
Definition split : string → list string := split_go None.

(** [s.replace(" ", "")]. *)
Fixpoint remove_spaces (s : string) : string :=
  match s with
  | EmptyString => EmptyString
  | String c s' =>
      if decide (c = " "%char) then remove_spaces s'
      else String c (remove_spaces s')
  end.

(** [int(s)] on a string of ASCII digits, most significant first. *)
Fixpoint int_go (acc : Z) (s : string) : Z :=
  match s with
  | EmptyString => acc
  | String c s' => int_go (10 * acc + (Z.of_N (code c) - 48)) s'
  end.
Definition int : string → Z := int_go 0.

(** [re.search]: the match at the leftmost start position where the
    pattern matches; [m] is the pattern anchored at the start of its
    argument. *)
Fixpoint re_search {A} (m : string → option A) (s : string) : option A :=
  match m s with
  | Some r => Some r
  | None =>
      match s with
      | EmptyString => None
      | String _ s' => re_search m s'
      end
  end.

(** Case-insensitive test against an ASCII letter. *)
Definition ieq (c l : ascii) : bool := bool_decide (to_lower c = to_lower l).

End PyStr.

(** ** The catalog (data/tools.json) *)

(** A JSON value as [json.load] returns it, for a field that is not
    always a string: [torque_range] is a range string, the constant
    [NaN], [null] or a number. *)
Inductive jvalue :=
  | JStr (s : string)
  | JNaN
  | JNull
  | JInt (z : Z).

Global Instance jvalue_eq_dec : EqDecision jvalue.
Proof. solve_decision. Defined.

(** A catalog record.  A field that is [None] is a key absent from the
    dictionary, so that [t.get(key)] is [None] and [t.get(key, d)] is
    [d]. *)
Record Tool := {
  tool_name : option string;
  category : option string;
  use_case : option string;
  application_type : option string;
  voltage : option string;
  torque_range : option jvalue;
  ip_rating : option string;
  specifications : list string;
  image_path : option string
}.

Global Instance Tool_eq_dec : EqDecision Tool.
Proof. solve_decision. Defined.

(** Python truth value of [t.get(key)] for a string field. *)
Definition truthy (o : option string) : bool :=
  match o with
  | Some s => negb (bool_decide (s = EmptyString))
  | None => false
  end.

(** Python truth value of a JSON value ([nan] is true). *)
Definition jtruthy (o : option jvalue) : bool :=
  match o with
  | Some (JStr s) => negb (bool_decide (s = EmptyString))
  | Some JNaN => true
  | Some (JInt z) => negb (z =? 0)
  | Some JNull | None => false
  end.

(** ** query_parser.py *)

(** The FilterSet: the dictionary built by [extract_filters], with its
    four optional keys. *)
Record Filters := {
  f_voltage : option string;
  f_torque : option Z;
  f_ip_rating : option string;
  f_application_type : option string
}.

Global Instance Filters_eq_dec : EqDecision Filters.
Proof. solve_decision. Defined.

Definition no_filters : Filters :=
  {| f_voltage := None; f_torque := None;
     f_ip_rating := None; f_application_type := None |}.

(** [key in filters], on the field of the key. *)
Definition has_key {A} (o : option A) : bool :=
  match o with Some _ => true | None => false end.

(** Truth value of the dictionary: it has at least one key. *)
Definition has_filters (f : Filters) : bool :=
  has_key (f_voltage f) || has_key (f_torque f) ||
  has_key (f_ip_rating f) || has_key (f_application_type f).

(** [{**a, **b}] and [a.update(b)]: the keys of [b] override. *)
Definition merge_filters (a b : Filters) : Filters :=
  {| f_voltage := from_option Some (f_voltage a) (f_voltage b);
     f_torque := from_option Some (f_torque a) (f_torque b);
     f_ip_rating := from_option Some (f_ip_rating a) (f_ip_rating b);
     f_application_type :=
       from_option Some (f_application_type a) (f_application_type b) |}.

Module Regex.
Import PyStr.

(** [(\d+\s?V)] with IGNORECASE, anchored: a maximal run of digits,
    at most one white-space character, then [V] or [v].  Giving digits
    or the space back never helps, the character after them being
    fixed, so the greedy match is the only one.  The result is
    [group()]. *)
Definition voltage_at (s : string) : option string :=
  let '(ds, rest) := span is_digit s in
  if decide (ds = EmptyString) then None
  else match rest with
       | String c rest' =>
           if ieq c "V" then Some (ds +:+ String c EmptyString)
           else if is_space c then
             match rest' with
             | String c' _ =>
                 if ieq c' "V"
                 then Some (ds +:+ String c (String c' EmptyString))
                 else None
             | EmptyString => None
             end
           else None
       | EmptyString => None
       end.

(** [(\d+)\s*Nm] with IGNORECASE, anchored; the result is [group(1)]. *)
Definition torque_at (s : string) : option string :=
  let '(ds, rest) := span is_digit s in
  if decide (ds = EmptyString) then None
  else match drop_while is_space rest with
       | String n (String m _) =>
           if ieq n "N" && ieq m "m" then Some ds else None
       | _ => None
       end.

(** [(IP\d+)] with IGNORECASE, anchored; the result is [group()]. *)
Definition ip_at (s : string) : option string :=
  match s with
  | String i (String p rest) =>
      if ieq i "I" && ieq p "P" then
        let '(ds, _) := span is_digit rest in
        if decide (ds = EmptyString) then None
        else Some (String i (String p ds))
      else None
  | _ => None
  end.

(** The separator class of the range pattern: a hyphen, or an en-dash
    (U+2013, the bytes E2 80 93). *)
Definition en_dash : string :=
  String (ascii_of_N 226) (String (ascii_of_N 128)
    (String (ascii_of_N 147) EmptyString)).

Definition after_separator (s : string) : option string :=
  match s with
  | String c rest =>
      if decide (c = "-"%char) then Some rest
      else match rest with
           | String c2 (String c3 rest') =>
               if decide (String c (String c2 (String c3 EmptyString))
                          = en_dash)
               then Some rest' else None
           | _ => None
           end
  | EmptyString => None
  end.

(** [(\d+)[–\-](\d+)], anchored; the result is the two groups. *)
Definition range_at (s : string) : option (string * string) :=
  let '(lo, rest) := span is_digit s in
  if decide (lo = EmptyString) then None
  else match after_separator rest with
       | Some rest' =>
           let '(hi, _) := span is_digit rest' in
           if decide (hi = EmptyString) then None else Some (lo, hi)
       | None => None
       end.

End Regex.

Definition extract_filters (query : string) : Filters :=
  let query_lower := PyStr.lower query in
  let has k := PyStr.contains k query_lower in
  {| f_voltage :=
       (λ g, PyStr.upper (PyStr.remove_spaces g))
         <$> PyStr.re_search Regex.voltage_at query;
     f_torque := PyStr.int <$> PyStr.re_search Regex.torque_at query;
     f_ip_rating := PyStr.upper <$> PyStr.re_search Regex.ip_at query;
     f_application_type :=
       if has "cordless" || has "portable" then Some "Manual / Portable"
       else if has "automation" || has "assembly line" || has "automated"
       then Some "Automation"
       else if has "manual" && negb (has "portable") then Some "Manual"
       else if has "controller" || has "control system"
       then Some "Control System"
       else if has "verification" || has "calibration"
       then Some "Quality / Verification"
       else None |}.

(** The argument is [tool.get('torque_range', '')]. *)
Definition _torque_in_range (requested_torque : Z) (torque_range : jvalue)
    : bool :=
  match torque_range with
  | JStr s =>
      if bool_decide (s = EmptyString) then false
      else if bool_decide (s = "NaN") || bool_decide (PyStr.strip s = EmptyString)
      then false
      else match PyStr.re_search Regex.range_at s with
           | Some (lo, hi) =>
               let min_torque := PyStr.int lo in
               let max_torque := PyStr.int hi in
               (min_torque <=? requested_torque) &&
               (requested_torque <=? max_torque)
           | None => false
           end
  | JNaN | JNull | JInt _ => false
  end.

Definition voltage_ok (v : string) (tool : Tool) : bool :=
  PyStr.contains v (PyStr.upper (default EmptyString (voltage tool))).

Definition ip_rating_ok (v : string) (tool : Tool) : bool :=
  bool_decide (PyStr.upper (default EmptyString (ip_rating tool)) = v).

Definition application_type_ok (v : string) (tool : Tool) : bool :=
  bool_decide (application_type tool = Some v).

Definition torque_ok (v : Z) (tool : Tool) : bool :=
  _torque_in_range v (default (JStr EmptyString) (torque_range tool)).

(** [if key in filters: filtered_tools = [t for t in filtered_tools if
    ok(filters[key], t)]]. *)
Definition narrow {V} (key : option V) (ok : V → Tool → bool)
    (filtered_tools : list Tool) : list Tool :=
  match key with
  | Some v => List.filter (ok v) filtered_tools
  | None => filtered_tools
  end.

Definition apply_metadata_filters (tools : list Tool) (filters : Filters)
    : list Tool :=
  if negb (has_filters filters) then tools
  else
    let filtered_tools := tools in
    let filtered_tools :=
      narrow (f_voltage filters) voltage_ok filtered_tools in
    let filtered_tools :=
      narrow (f_ip_rating filters) ip_rating_ok filtered_tools in
    let filtered_tools :=
      narrow (f_application_type filters) application_type_ok filtered_tools in
    let filtered_tools :=
      narrow (f_torque filters) torque_ok filtered_tools in
    filtered_tools.

(** The same four statements run in an arbitrary order [keys], to
    compare with the order of the source. *)
Inductive FilterKey := KVoltage | KIpRating | KApplicationType | KTorque.

Global Instance FilterKey_eq_dec : EqDecision FilterKey.
Proof. solve_decision. Defined.

Definition filter_step (filters : Filters) (filtered_tools : list Tool)
    (k : FilterKey) : list Tool :=
  match k with
  | KVoltage => narrow (f_voltage filters) voltage_ok filtered_tools
  | KIpRating => narrow (f_ip_rating filters) ip_rating_ok filtered_tools
  | KApplicationType =>
      narrow (f_application_type filters) application_type_ok filtered_tools
  | KTorque => narrow (f_torque filters) torque_ok filtered_tools
  end.

Definition apply_in_order (keys : list FilterKey) (tools : list Tool)
    (filters : Filters) : list Tool :=
  if negb (has_filters filters) then tools
  else foldl (filter_step filters) tools keys.

Definition source_order : list FilterKey :=
  [KVoltage; KIpRating; KApplicationType; KTorque].

(** The conjunction of the tests of the keys present in [filters]. *)
Definition passes (filters : Filters) (tool : Tool) : bool :=
  from_option (λ v, voltage_ok v tool) true (f_voltage filters) &&
  from_option (λ v, ip_rating_ok v tool) true (f_ip_rating filters) &&
  from_option (λ v, application_type_ok v tool) true
    (f_application_type filters) &&
  from_option (λ v, torque_ok v tool) true (f_torque filters).

(** ** Python list primitives *)

Module PyList.
Section Ops.
Context {A : Type}.

(** [l[i]]: a negative index counts from the end; [None] is
    IndexError. *)
Definition getitem (l : list A) (i : Z) : option A :=
  let n := Z.of_nat (length l) in
  if 0 <=? i then l !! Z.to_nat i
  else if 0 <=? n + i then l !! Z.to_nat (n + i)
  else None.

(** [l[:k]]: a negative bound counts from the end. *)
Definition slice_to (k : Z) (l : list A) : list A :=
  if 0 <=? k then take (Z.to_nat k) l
  else take (Z.to_nat (Z.of_nat (length l) + k)) l.

(** [l.index(x)] for the equality test [eqb] of the elements: the
    first position holding an element equal to [x]; [None] is
    ValueError. *)
Fixpoint index (eqb : A → A → bool) (x : A) (l : list A) : option nat :=
  match l with
  | [] => None
  | y :: l' => if eqb y x then Some 0%nat else S <$> index eqb x l'
  end.
End Ops.
End PyList.

(** ** agents/retriever.py *)

(** Python [==] on the elements of the catalog. *)
Class PyEq (A : Type) := py_eq : A → A → bool.

(** Two dictionaries are equal when their contents are. *)
Global Instance Tool_py_eq : PyEq Tool := λ a b, bool_decide (a = b).

(** A catalog entry as a Python object: [obj_id] is its identity, the
    position at which [json.load] created it in the catalog, and
    [obj_val] its contents.  [==] looks at the contents only. *)
Record ToolObj := { obj_id : nat; obj_val : Tool }.

Global Instance ToolObj_eq_dec : EqDecision ToolObj.
Proof. solve_decision. Defined.

Global Instance ToolObj_py_eq : PyEq ToolObj :=
  λ a b, bool_decide (obj_val a = obj_val b).

(** The objects of a catalog, in catalog order. *)
Definition objects (tools : list Tool) : list ToolObj :=
  imap (λ i t, {| obj_id := i; obj_val := t |}) tools.

Section Retriever.

(** [nearest query k] is [index.search(embed_query(query), k)[1][0]]:
    the catalog positions of the [k] nearest vectors, nearest first
    (the index pads with -1). *)
Variable nearest : string → Z → list Z.

(** [data/tools.json]; [None] when it cannot be read. *)
Variable tools_json : option (list Tool).

Definition semantic_search_on_subset {A} `{PyEq A} (query : string)
    (filtered_tools all_tools : list A) (top_k : Z) : option (list A) :=
  filtered_indices ←
    mapM (λ tool, PyList.index py_eq tool all_tools) filtered_tools;
  let all_indices := nearest query (Z.of_nat (length all_tools)) in
  let matched_indices :=
    List.filter
      (λ idx, bool_decide (idx ∈ Z.of_nat <$> filtered_indices))
      all_indices in
  results ←
    mapM (PyList.getitem all_tools) (PyList.slice_to top_k matched_indices);
  Some (match results with
        | [] => PyList.slice_to top_k filtered_tools
        | _ => results
        end).

Definition retrieve_tools (query : string) (top_k : Z) (use_filters : bool)
    : option (list Tool) :=
  tools ← tools_json;
  let filters := if use_filters then extract_filters query else no_filters in
  if has_filters filters then
    let filtered_tools := apply_metadata_filters tools filters in
    match filtered_tools with
    | _ :: _ => semantic_search_on_subset query filtered_tools tools 1
    | [] => Some []
    end
  else
    let indices := nearest query top_k in
    results ← mapM (PyList.getitem tools) indices;
    Some (PyList.slice_to 1 results).

End Retriever.

(** ** clarification.py *)

Definition common_words : list string :=
  ["the"; "a"; "an"; "for"; "with"; "and"; "or"; "-";
   "tool"; "machine"; "device"; "equipment"; "system"].

(** The body of the loop of [_load_tool_names]. *)
Definition add_tool_keywords (tool_keywords : gset string) (tool : Tool)
    : gset string :=
  let tool_keywords :=
    if truthy (tool_name tool)
    then tool_keywords ∪ {[ PyStr.lower (default EmptyString (tool_name tool)) ]}
    else tool_keywords in
  let tool_keywords :=
    if truthy (tool_name tool)
    then tool_keywords ∪
         list_to_set
           (PyStr.split (PyStr.lower (default EmptyString (tool_name tool))))
    else tool_keywords in
  if truthy (category tool)
  then tool_keywords ∪
       list_to_set
         (PyStr.split (PyStr.lower (default EmptyString (category tool))))
  else tool_keywords.

Definition tool_keywords_of (tools : list Tool) : gset string :=
  let tool_keywords := foldl add_tool_keywords ∅ tools in
  filter (λ word, word ∉ common_words) tool_keywords.

(** [_load_tool_names], on the global [_tool_names_cache]: the result
    and the cache afterwards.  An unreadable file gives the empty set
    and leaves the cache.  (The second global, [_categories_cache], is
    written and never read.) *)
Definition _load_tool_names (tools_json : option (list Tool))
    (cache : gset string) : gset string * gset string :=
  if decide (cache ≠ ∅) then (cache, cache)
  else match tools_json with
       | Some tools =>
           let tool_keywords := tool_keywords_of tools in
           (tool_keywords, tool_keywords)
       | None => (∅, cache)
       end.

(** [any(k in query_lower for k in specific_tools)]. *)
Definition has_keyword (specific_tools : gset string) (query_lower : string)
    : bool :=
  existsb (λ tool_keyword, PyStr.contains tool_keyword query_lower)
    (elements specific_tools).

Definition generic_terms : list string :=
  ["tool"; "machine"; "device"; "equipment"].

Definition vague_phrases : list string :=
  ["i want"; "i need"; "looking for"; "show me";
   "give me"; "find me"; "help with"].

(** [any(term in query_words for term in generic_terms)]. *)
Definition has_generic_term (query_words : list string) : bool :=
  existsb (λ term, bool_decide (term ∈ query_words)) generic_terms.

(** [any(phrase in query_lower for phrase in vague_phrases)]. *)
Definition has_vague_phrase (query_lower : string) : bool :=
  existsb (λ phrase, PyStr.contains phrase query_lower) vague_phrases.

(** [needs_clarification]; the second component is the keyword cache
    afterwards. *)
Definition needs_clarification (tools_json : option (list Tool))
    (cache : gset string) (query : string) (filters : Filters)
    (filtered_tools : list Tool) : bool * gset string :=
  let query_lower := PyStr.lower query in
  let query_words := PyStr.split query_lower in
  let n := length filtered_tools in
  if has_filters filters && (0 <? n)%nat && (n <=? 3)%nat then (false, cache)
  else
    let '(specific_tools, cache) := _load_tool_names tools_json cache in
    let has_specific_tool := has_keyword specific_tools query_lower in
    if has_specific_tool && (0 <? n)%nat then
      (if (3 <? n)%nat then true else false, cache)
    else
      if (has_generic_term query_words || has_vague_phrase query_lower)
         && negb has_specific_tool && negb (has_filters filters)
      then (true, cache)
      else if (length query_words <? 2)%nat && negb (has_filters filters)
              && negb has_specific_tool
      then (true, cache)
      else if (3 <? n)%nat then (true, cache)
      else if (n =? 0)%nat then (true, cache)
      else (false, cache).

(** The clarification payload. *)
Record Clarification := {
  status : string;
  message : string;
  questions : list string;
  suggestions : gmap string (list jvalue)
}.

(** [sorted(set(l))] on strings. *)
Definition sorted_set (l : list string) : list string :=
  merge_sort String.le (remove_dups l).

Definition examples_no_match : list string :=
  ["cordless nutrunner"; "handheld screwdriver";
   "automation spindle"; "verification system"].

Definition examples_vague : list string :=
  ["cordless nutrunner"; "handheld screwdriver";
   "automation spindle"; "torque verification system"].

(** Case 2 of [generate_clarification_question], one dimension at a
    time, on the pair [(questions, suggestions)]. *)
Definition QS : Type := list string * gmap string (list jvalue).

Definition ask_voltage (filters : Filters) (filtered_tools : list Tool)
    (qs : QS) : QS :=
  if negb (has_key (f_voltage filters)) then
    let voltages :=
      sorted_set ((λ t, default "N/A" (voltage t)) <$>
                  List.filter (λ t, truthy (voltage t)) filtered_tools) in
    if (1 <? length voltages)%nat
    then (qs.1 ++ ["What voltage do you need?"],
          <["voltage_options" := JStr <$> voltages]> qs.2)
    else qs
  else qs.

Definition ask_application_type (filters : Filters)
    (filtered_tools : list Tool) (qs : QS) : QS :=
  if negb (has_key (f_application_type filters)) then
    let app_types :=
      sorted_set ((λ t, default "N/A" (application_type t)) <$>
                  filtered_tools) in
    if (1 <? length app_types)%nat
    then (qs.1 ++ ["Is this for manual use or automation?"],
          <["application_types" := JStr <$> app_types]> qs.2)
    else qs
  else qs.

Definition ask_torque (filters : Filters) (filtered_tools : list Tool)
    (qs : QS) : QS :=
  if negb (has_key (f_torque filters)) then
    let torque_ranges :=
      (λ t, default (JStr "N/A") (torque_range t)) <$>
      List.filter
        (λ t, jtruthy (torque_range t) &&
              negb (bool_decide (torque_range t = Some (JStr "NaN"))))
        filtered_tools in
    match torque_ranges with
    | _ :: _ =>
        (qs.1 ++ ["What torque range do you require?"],
         <["torque_examples" := take 3 torque_ranges]> qs.2)
    | [] => qs
    end
  else qs.

Definition ask_ip_rating (filters : Filters) (filtered_tools : list Tool)
    (qs : QS) : QS :=
  if negb (has_key (f_ip_rating filters)) &&
     bool_decide (qs.1 = [])
  then
    let ip_ratings :=
      sorted_set ((λ t, default "N/A" (ip_rating t)) <$>
                  List.filter (λ t, truthy (ip_rating t)) filtered_tools) in
    if (1 <? length ip_ratings)%nat
    then (qs.1 ++ ["Do you need a specific IP rating?"],
          <["ip_rating_options" := JStr <$> ip_ratings]> qs.2)
    else qs
  else qs.

Definition too_many_payload (filters : Filters) (filtered_tools : list Tool)
    : Clarification :=
  let qs : QS := ([], ∅) in
  let qs := ask_voltage filters filtered_tools qs in
  let qs := ask_application_type filters filtered_tools qs in
  let qs := ask_torque filters filtered_tools qs in
  let qs := ask_ip_rating filters filtered_tools qs in
  {| status := "needs_clarification";
     message := "I found " +:+ pretty (length filtered_tools) +:+
                " tools that might match. Please provide more details:";
     questions := take 2 qs.1;
     suggestions := qs.2 |}.

Definition generate_clarification_question (query : string)
    (filters : Filters) (filtered_tools all_tools : list Tool)
    : Clarification :=
  if (length filtered_tools =? 0)%nat then
    let available_types :=
      sorted_set ((λ t, default "N/A" (application_type t)) <$> all_tools) in
    let available_categories :=
      sorted_set ((λ t, default "N/A" (category t)) <$> all_tools) in
    {| status := "needs_clarification";
       message := "I couldn't find any tools matching your criteria. Could you provide more details?";
       questions := ["What type of tool are you looking for?";
                     "What will be the primary use case?"];
       suggestions :=
         <["examples" := JStr <$> examples_no_match]>
         (<["application_types" := JStr <$> available_types]>
          (<["categories" := JStr <$> available_categories]> ∅)) |}
  else if (3 <? length filtered_tools)%nat then
    too_many_payload filters filtered_tools
  else if (length (PyStr.split query) <? 2)%nat && negb (has_filters filters)
  then
    {| status := "needs_clarification";
       message := "Your query is too vague. Could you be more specific?";
       questions := ["What type of tool are you looking for?";
                     "What is your intended use case?"];
       suggestions := {[ "examples" := JStr <$> examples_vague ]} |}
  else
    let questions := [] in
    let questions :=
      if negb (has_key (f_torque filters))
      then questions ++ ["What torque range do you require (in Nm)?"]
      else questions in
    let questions :=
      if negb (has_key (f_application_type filters))
      then questions ++ ["Is this for automation or manual use?"]
      else questions in
    let questions :=
      if negb (has_key (f_voltage filters))
      then questions ++
           ["Do you have any voltage preference (e.g., 18V, 230V, 400V)?"]
      else questions in
    {| status := "needs_clarification";
       message := "Could you provide more details about your requirements?";
       questions := take 2 questions;
       suggestions := ∅ |}.

(** ** session_manager.py *)

(** A value of [json.loads]. *)
#[warnings="-register-all"] Inductive json :=
  | JsNull
  | JsBool (b : bool)
  | JsNumber (literal : string)
  | JsString (s : string)
  | JsArray (items : list json)
  | JsObject (members : list (string * json)).

(** What [run_agent] returns: the clarification payload with the merged
    filters attached under the key [filters], the object parsed from the
    recommender's text, or the payload [{error, raw}]. *)
Inductive Response :=
  | RClarification (c : Clarification) (filters : Filters)
  | RRecommendation (parsed : json)
  | RError (error raw : string).

Record Interaction := {
  i_timestamp : Z;
  i_query : string;
  i_response : Response
}.

(** A [datetime] is a count of microseconds; a [timedelta] too. *)
Record Session := {
  session_id : string;
  conversation_history : list Interaction;
  extracted_filters : Filters;
  last_query : string;
  clarification_count : Z;
  created_at : Z;
  last_accessed : Z
}.

(** [timedelta(minutes=30)]. *)
Definition SESSION_TIMEOUT : Z := 30 * 60 * 1000000.

Definition expired (now : Z) (session : Session) : bool :=
  SESSION_TIMEOUT <? now - last_accessed session.

(** The functions below work on the global dictionary [sessions],
    passed in and returned.  Each call of [datetime.now()] is a
    parameter. *)
Definition create_session (now1 now2 : Z) (sid : string)
    (sessions : gmap string Session) : Session * gmap string Session :=
  let session :=
    {| session_id := sid;
       conversation_history := [];
       extracted_filters := no_filters;
       last_query := EmptyString;
       clarification_count := 0;
       created_at := now1;
       last_accessed := now2 |} in
  (session, <[sid := session]> sessions).

Definition cleanup_expired_sessions (now : Z)
    (sessions : gmap string Session) : gmap string Session :=
  let expired_sessions :=
    (map_to_list sessions) ≫= (λ '(sid, session),
      if expired now session then [sid] else []) in
  foldl (λ m sid, delete sid m) sessions expired_sessions.

Definition touch (now : Z) (s : Session) : Session :=
  {| session_id := session_id s;
     conversation_history := conversation_history s;
     extracted_filters := extracted_filters s;
     last_query := last_query s;
     clarification_count := clarification_count s;
     created_at := created_at s;
     last_accessed := now |}.

(** [now] is the clock read by the clean-up, [now1] and [now2] the
    later reads of the lookup ([now2] is read only when a session is
    created). *)
Definition get_session (now now1 now2 : Z) (sid : string)
    (sessions : gmap string Session) : Session * gmap string Session :=
  let sessions := cleanup_expired_sessions now sessions in
  match sessions !! sid with
  | Some session =>
      let session := touch now1 session in
      (session, <[sid := session]> sessions)
  | None => create_session now1 now2 sid sessions
  end.

Definition get_accumulated_filters (session : Session) : Filters :=
  extracted_filters session.

Definition clear_session (sid : string) (sessions : gmap string Session)
    : gmap string Session :=
  delete sid sessions.

(** ** crew_setup.py *)

Module JsonRegex.

Definition lbrace : ascii := "{"%char.
Definition rbrace : ascii := "}"%char.

(** The pattern of [run_agent], written here with spaces between its
    parts,
      \{ [^{}]* (?: \{ [^{}]* \} [^{}]* )* \}
    after its opening brace.  [inner] tells whether the match is
    inside the group (?: ... ).  Every character leaves one alternative: a brace
    cannot be taken by [[^{}]*], and any other character only by it;
    an opening brace inside the group matches nothing. The result is
    the text matched, closing brace included. *)
Fixpoint object_tail (inner : bool) (s : string) : option string :=
  match s with
  | EmptyString => None
  | String c s' =>
      if decide (c = lbrace) then
        if inner then None else String c <$> object_tail true s'
      else if decide (c = rbrace) then
        if inner then String c <$> object_tail false s'
        else Some (String c EmptyString)
      else String c <$> object_tail inner s'
  end.

(** The pattern anchored; the result is [group(0)]. *)
Definition object_at (s : string) : option string :=
  match s with
  | String c s' =>
      if decide (c = lbrace) then String c <$> object_tail false s'
      else None
  | EmptyString => None
  end.

End JsonRegex.

(** The local variables of [run_agent] that depend on the keywords
    [specific_tools] returned by [_load_tool_names]. *)
Definition has_new_specific_tool (specific_tools : gset string)
    (user_query : string) : bool :=
  has_keyword specific_tools (PyStr.lower user_query).

Definition enhanced_query (specific_tools : gset string)
    (user_query : string) (session : option Session) : string :=
  match session with
  | Some s =>
      if negb (bool_decide (last_query s = EmptyString)) &&
         (length (PyStr.split user_query) <=? 2)%nat &&
         negb (has_new_specific_tool specific_tools user_query)
      then last_query s +:+ " " +:+ user_query
      else user_query
  | None => user_query
  end.

Definition merged_filters (specific_tools : gset string)
    (user_query : string) (session : option Session) : Filters :=
  let accumulated_filters :=
    from_option get_accumulated_filters no_filters session in
  let current_filters := extract_filters user_query in
  if has_new_specific_tool specific_tools user_query then current_filters
  else merge_filters accumulated_filters current_filters.

Section Agent.

Variable nearest : string → Z → list Z.
Variable tools_json : option (list Tool).

(** [str(crew.kickoff())] for the task built from the query, the
    retrieved tools and the merged filters. *)
Variable kickoff : string → list Tool → Filters → string.

(** [json.loads]; [None] is JSONDecodeError. *)
Variable json_loads : string → option json.

(** The [try] block that ends [run_agent]. *)
Definition extract_json (result_str : string) : Response :=
  match PyStr.re_search JsonRegex.object_at result_str with
  | Some group0 =>
      match json_loads group0 with
      | Some parsed => RRecommendation parsed
      | None => RError "Invalid JSON" result_str
      end
  | None => RError "No JSON found in response" result_str
  end.

(** [run_agent], with the keyword cache passed in and returned;
    [None] is an exception of the retrieval or of reading the
    catalog. *)
Definition run_agent (cache : gset string) (user_query : string)
    (session : option Session) : option (Response * gset string) :=
  let accumulated_filters :=
    from_option get_accumulated_filters no_filters session in
  let '(specific_tools, cache) := _load_tool_names tools_json cache in
  let enhanced_query := enhanced_query specific_tools user_query session in
  let merged_filters := merged_filters specific_tools user_query session in
  tools ← retrieve_tools nearest tools_json enhanced_query 3 true;
  let tools :=
    if has_filters merged_filters && has_filters accumulated_filters then
      match tools with
      | _ :: _ => apply_metadata_filters tools merged_filters
      | [] => []
      end
    else tools in
  all_tools ← tools_json;
  let '(clarify, cache) :=
    needs_clarification tools_json cache user_query merged_filters tools in
  if clarify then
    let clarification :=
      generate_clarification_question user_query merged_filters tools
        all_tools in
    Some (RClarification clarification merged_filters, cache)
  else
    Some (extract_json (kickoff user_query tools merged_filters), cache).

End Agent.

(** ** Definitions used by the statements *)

(** A predicate over the characters of a string. *)
Fixpoint all_chars (f : ascii → bool) (s : string) : bool :=
  match s with
  | EmptyString => true
  | String c s' => f c && all_chars f s'
  end.

(** The application-type rules of the extractor as a decision list: the
    test of each rule on the lowercased query, and the value it gives. *)
Definition application_rules : list ((string → bool) * string) :=
  [ (λ q, PyStr.contains "cordless" q || PyStr.contains "portable" q,
     "Manual / Portable");
    (λ q, PyStr.contains "automation" q || PyStr.contains "assembly line" q
          || PyStr.contains "automated" q,
     "Automation");
    (λ q, PyStr.contains "manual" q && negb (PyStr.contains "portable" q),
     "Manual");
    (λ q, PyStr.contains "controller" q || PyStr.contains "control system" q,
     "Control System");
    (λ q, PyStr.contains "verification" q || PyStr.contains "calibration" q,
     "Quality / Verification") ].

(** The value of the first rule that applies. *)
Fixpoint first_match (rules : list ((string → bool) * string)) (q : string)
    : option string :=
  match rules with
  | [] => None
  | (test, value) :: rules' =>
      if test q then Some value else first_match rules' q
  end.

(** The test of one key of [apply_metadata_filters] on a tool; a key
    absent from [filters] tests nothing. *)
Definition key_ok (filters : Filters) (k : FilterKey) (tool : Tool) : bool :=
  match k with
  | KVoltage => from_option (λ v, voltage_ok v tool) true (f_voltage filters)
  | KIpRating =>
      from_option (λ v, ip_rating_ok v tool) true (f_ip_rating filters)
  | KApplicationType =>
      from_option (λ v, application_type_ok v tool) true
        (f_application_type filters)
  | KTorque => from_option (λ v, torque_ok v tool) true (f_torque filters)
  end.






(** Where a keyword of the clarification engine comes from: the
    lowercased name of a tool, a word of that name, or a word of the
    lowercased category. *)
Definition keyword_source (tool : Tool) (w : string) : Prop :=
  (truthy (tool_name tool) = true ∧
   (w = PyStr.lower (default EmptyString (tool_name tool)) ∨
    w ∈ PyStr.split (PyStr.lower (default EmptyString (tool_name tool))))) ∨
  (truthy (category tool) = true ∧
   w ∈ PyStr.split (PyStr.lower (default EmptyString (category tool)))).

(** A small catalog for the examples. *)
Definition sample_tool (name cat app volt : string)
    (range : option jvalue) (ip : string) : Tool :=
  {| tool_name := Some name; category := Some cat; use_case := None;
     application_type := Some app; voltage := Some volt;
     torque_range := range; ip_rating := Some ip;
     specifications := []; image_path := None |}.

Definition sample_catalog : list Tool :=
  [ sample_tool "Cordless Nutrunner A" "Nutrunner" "Manual / Portable"
      "18V DC" (Some (JStr "5–100 Nm")) "IP54";
    sample_tool "Cordless Nutrunner B" "Nutrunner" "Manual / Portable"
      "36V DC" (Some (JStr "20-200 Nm")) "IP54";
    sample_tool "Automation Spindle" "Spindle" "Automation"
      "400V AC" (Some (JStr "2-80 Nm")) "IP40";
    sample_tool "Verification System" "Verification"
      "Quality / Verification" "230V AC" (Some JNaN) "IP40" ].

(** Four candidates that differ in nothing. *)
Definition bare_tool : Tool :=
  {| tool_name := None; category := None; use_case := None;
     application_type := None; voltage := None; torque_range := None;
     ip_rating := None; specifications := []; image_path := None |}.

(** The dimensions of the too-many-results payload. *)
Inductive Dimension := DVoltage | DApplicationType | DTorque | DIpRating.

Global Instance Dimension_eq_dec : EqDecision Dimension.
Proof. solve_decision. Defined.

Definition dimension_order : list Dimension :=
  [DVoltage; DApplicationType; DTorque; DIpRating].

Definition dimension_question (d : Dimension) : string :=
  match d with
  | DVoltage => "What voltage do you need?"
  | DApplicationType => "Is this for manual use or automation?"
  | DTorque => "What torque range do you require?"
  | DIpRating => "Do you need a specific IP rating?"
  end.

(** The dimension is a key of the filters. *)
Definition specified (d : Dimension) (filters : Filters) : bool :=
  match d with
  | DVoltage => has_key (f_voltage filters)
  | DApplicationType => has_key (f_application_type filters)
  | DTorque => has_key (f_torque filters)
  | DIpRating => has_key (f_ip_rating filters)
  end.

(** The values the candidates have in a dimension: the truthy voltages
    and IP ratings, the application types with "N/A" for a missing one,
    and the truthy torque ranges other than the string "NaN". *)
Definition torque_values (tools : list Tool) : list jvalue :=
  (λ t, default (JStr "N/A") (torque_range t)) <$>
  List.filter
    (λ t, jtruthy (torque_range t) &&
          negb (bool_decide (torque_range t = Some (JStr "NaN"))))
    tools.

Definition candidate_values (d : Dimension) (tools : list Tool)
    : list jvalue :=
  match d with
  | DVoltage =>
      (λ t, JStr (default "N/A" (voltage t))) <$>
      List.filter (λ t, truthy (voltage t)) tools
  | DApplicationType =>
      (λ t, JStr (default "N/A" (application_type t))) <$> tools
  | DTorque => torque_values tools
  | DIpRating =>
      (λ t, JStr (default "N/A" (ip_rating t))) <$>
      List.filter (λ t, truthy (ip_rating t)) tools
  end.

Definition distinct_values (d : Dimension) (tools : list Tool) : nat :=
  length (remove_dups (candidate_values d tools)).

(** The rule of the specification: an unspecified dimension is proposed
    only with more than one distinct value. *)
Definition proposed_only_if_discriminating (filters : Filters)
    (tools : list Tool) (payload : Clarification) : Prop :=
  ∀ d, dimension_question d ∈ questions payload →
       specified d filters = false ∧ (1 < distinct_values d tools)%nat.

(** The rule of the code: voltage, application type and IP rating are
    proposed with more than one distinct value, torque with at least
    one usable torque range, and IP rating only when no earlier
    dimension is proposed. *)
Definition proposes_early (filters : Filters) (tools : list Tool)
    (d : Dimension) : bool :=
  negb (specified d filters) &&
  match d with
  | DTorque => negb (bool_decide (torque_values tools = []))
  | _ => (1 <? distinct_values d tools)%nat
  end.

Definition proposes (filters : Filters) (tools : list Tool)
    (d : Dimension) : bool :=
  match d with
  | DIpRating =>
      proposes_early filters tools DIpRating &&
      negb (proposes_early filters tools DVoltage ||
            proposes_early filters tools DApplicationType ||
            proposes_early filters tools DTorque)
  | _ => proposes_early filters tools d
  end.

(** Four candidates with one and the same torque range. *)
Definition same_range_tool : Tool :=
  sample_tool "Nutrunner" "Nutrunner" "Manual / Portable" "18V DC"
    (Some (JStr "5-100 Nm")) "IP54".

Definition same_range_tools : list Tool :=
  [same_range_tool; same_range_tool; same_range_tool; same_range_tool].

(** Brace-delimited objects in a text. *)
Definition is_brace (c : ascii) : bool :=
  bool_decide (c = JsonRegex.lbrace) || bool_decide (c = JsonRegex.rbrace).

Definition no_brace (s : string) : Prop :=
  all_chars (λ c, negb (is_brace c)) s = true.

(** What may stand between the braces of an object whose braces nest
    at most one level deep: characters other than braces, and groups
    in braces that hold no brace. *)
Inductive shallow_body : string → Prop :=
  | shallow_end : shallow_body EmptyString
  | shallow_char c b :
      is_brace c = false → shallow_body b → shallow_body (String c b)
  | shallow_group g b :
      no_brace g → shallow_body b →
      shallow_body (String JsonRegex.lbrace (g +:+ String JsonRegex.rbrace b)).

Definition shallow_object (m : string) : Prop :=
  ∃ b, shallow_body b ∧
       m = String JsonRegex.lbrace (b +:+ String JsonRegex.rbrace EmptyString).









(** A catalog that lists one tool twice, and a ranking that puts
    the second entry first. *)
Definition twin_catalog : list ToolObj :=
  objects [same_range_tool; same_range_tool].

Definition first_twin : ToolObj :=
  {| obj_id := 0; obj_val := same_range_tool |}.

Definition second_twin : ToolObj :=
  {| obj_id := 1; obj_val := same_range_tool |}.

Definition twin_ranking : string → Z → list Z := λ _ _, [1; 0].

(** The positions of a list of catalog objects, as the index reports
    them. *)
Definition position (o : ToolObj) : Z := Z.of_nat (obj_id o).

(** A session last used at time 0, after one turn. *)
Definition stale_session : Session :=
  {| session_id := "abc";
     conversation_history :=
       [ {| i_timestamp := 0; i_query := "nutrunner";
            i_response := RError "Invalid JSON" "no object" |} ];
     extracted_filters := extract_filters "18V";
     last_query := "nutrunner";
     clarification_count := 1;
     created_at := 0;
     last_accessed := 0 |}.

(** ** The rest of clarification.py, session_manager.py and main.py *)

(** [_clear_cache]: the keyword cache afterwards. *)
Definition _clear_cache : gset string := ∅.







(** [l[-2:]]. *)
Definition last_two {A} (l : list A) : list A :=
  drop (length l - 2) l.

Section MergeContext.

(** [json.dumps] on a FilterSet. *)
Variable json_dumps : Filters → string.

Definition merge_context (session : Session) (current_query : string)
    : string :=
  match conversation_history session with
  | [] => current_query
  | _ :: _ =>
      let previous_filters := extracted_filters session in
      let context_parts := [] in
      let context_parts :=
        if has_filters previous_filters
        then context_parts ++
             ["Previous preferences: " +:+ json_dumps previous_filters]
        else context_parts in
      let recent_history := last_two (conversation_history session) in
      let context_parts :=
        context_parts ++
        ((λ interaction, "Previous query: " +:+ i_query interaction)
           <$> recent_history) in
      match context_parts with
      | _ :: _ =>
          let context := String.concat " | " context_parts in
          current_query +:+ " [Context: " +:+ context +:+ "]"
      | [] => current_query
      end
  end.

End MergeContext.

Record Stats := {
  active_sessions : nat;
  total_conversations : nat;
  sessions_needing_clarification : nat
}.

Definition get_session_stats (sessions : gmap string Session) : Stats :=
  let values := (map_to_list sessions).*2 in
  {| active_sessions := size sessions;
     total_conversations :=
       sum_list ((λ s, length (conversation_history s)) <$> values);
     sessions_needing_clarification :=
       length (List.filter (λ s, 0 <? clarification_count s) values) |}.


Section Server.

Variable nearest : string → Z → list Z.
Variable tools_json : option (list Tool).
Variable kickoff : string → list Tool → Filters → string.
Variable json_loads : string → option json.

(** [str(uuid.uuid4())]. *)
Variable fresh_uuid : string.



End Server.

(** ** Further definitions used by the statements *)



(** The counter of a session counts turns of its history. *)
Definition session_ok (s : Session) : Prop :=
  0 ≤ clarification_count s ≤ Z.of_nat (length (conversation_history s)).

Definition store_ok (sessions : gmap string Session) : Prop :=
  ∀ sid s, sessions !! sid = Some s → session_ok s.



(** * Properties *)

(** ** Strings *)










(** ** Filter extraction (query_parser.py) *)

(** The decision list holds for every query, whatever it contains. *)
Lemma application_type_first_match (query : string) :
  f_application_type (extract_filters query) =
    first_match application_rules (PyStr.lower query).
Proof.
  unfold extract_filters, application_rules, first_match.
  cbn [f_application_type].
  repeat match goal with |- context [if ?b then _ else _] =>
    destruct b; try reflexivity end.
Qed.

(** C5.  A query whose lowercased text contains both "manual" and
    "portable" gets the application type "Manual / Portable", not
    "Manual"; the application type is the value of the first rule that
    applies in the order cordless/portable, automation,
    manual-without-portable, controller, verification/calibration. *)
Theorem manual_and_portable_is_manual_portable (query : string) :
  PyStr.contains "manual" (PyStr.lower query) = true →
  PyStr.contains "portable" (PyStr.lower query) = true →
  f_application_type (extract_filters query) = Some "Manual / Portable" ∧
  f_application_type (extract_filters query) ≠ Some "Manual" ∧
  f_application_type (extract_filters query) =
    first_match application_rules (PyStr.lower query).
Proof.
  intros Hm Hp.
  pose proof (application_type_first_match query) as Hrules.
  assert (f_application_type (extract_filters query)
          = Some "Manual / Portable") as Hv.
  { rewrite Hrules. unfold application_rules, first_match.
    rewrite Hp, orb_true_r. reflexivity. }
  split; [exact Hv|]. split; [|exact Hrules].
  rewrite Hv. discriminate.
Qed.

Lemma manual_and_portable_witness :
  f_application_type (extract_filters "Manual or PORTABLE wrench")
    = Some "Manual / Portable" ∧
  f_application_type (extract_filters "Manual or PORTABLE wrench")
    ≠ Some "Manual" ∧
  f_application_type (extract_filters "Manual or PORTABLE wrench") =
    first_match application_rules (PyStr.lower "Manual or PORTABLE wrench").
Proof.
  apply (manual_and_portable_is_manual_portable "Manual or PORTABLE wrench");
    vm_compute; reflexivity.
Defined.

(** ** Regular-expression search *)

Lemma sapp_nil_l s : EmptyString +:+ s = s.
Proof. reflexivity. Qed.

Lemma sapp_cons c a b : String c a +:+ b = String c (a +:+ b).
Proof. reflexivity. Qed.

Create Rewrite HintDb sapp.
#[local] Hint Rewrite sapp_nil_l sapp_cons : sapp.

Ltac snorm := autorewrite with sapp in *.

Lemma sapp_nil_r s : s +:+ EmptyString = s.
Proof. induction s as [|c s IH]; [done|]. snorm. by rewrite IH. Qed.

Lemma sapp_assoc a b c : (a +:+ b) +:+ c = a +:+ b +:+ c.
Proof. induction a as [|x a IH]; [done|]. snorm. simpl. by rewrite IH. Qed.

Lemma sapp_length a b :
  String.length (a +:+ b) = (String.length a + String.length b)%nat.
Proof. induction a as [|x a IH]; [done|]. snorm. simpl. by rewrite IH. Qed.



Lemma re_search_None {A} (m : string → option A) s :
  PyStr.re_search m s = None ↔ ∀ pre suf, s = pre +:+ suf → m suf = None.
Proof.
  split.
  - induction s as [|c s IH]; cbn [PyStr.re_search].
    + destruct (m EmptyString) eqn:E; [done|].
      intros _ [|??] [|??]; done.
    + destruct (m (String c s)) eqn:E; [done|].
      intros H [|y pre] suf Hs.
      * snorm. by subst suf.
      * snorm. injection Hs as -> Hs. by apply (IH H pre).
  - intros H. induction s as [|c s IH]; cbn [PyStr.re_search].
    + by rewrite (H EmptyString EmptyString).
    + rewrite (H EmptyString (String c s) eq_refl).
      apply IH. intros pre suf ->. by apply (H (String c pre)).
Qed.




(** ** Torque ranges (query_parser.py) *)








(** ** Metadata filter (query_parser.py) *)

Lemma filter_true {A} (l : list A) : List.filter (λ _, true) l = l.
Proof. induction l as [|x l IH]; simpl; by rewrite ?IH. Qed.

Lemma filter_twice {A} (p q : A → bool) l :
  List.filter p (List.filter q l) = List.filter (λ x, q x && p x) l.
Proof.
  induction l as [|x l IH]; simpl; [done|].
  destruct (q x); simpl; [destruct (p x)|]; by rewrite IH.
Qed.

Lemma filter_sublist {A} (p : A → bool) l : List.filter p l `sublist_of` l.
Proof.
  induction l as [|x l IH]; simpl; [constructor|].
  destruct (p x); by constructor.
Qed.

Lemma narrow_filter {V} (key : option V) ok l :
  narrow key ok l = List.filter (λ t, from_option (λ v, ok v t) true key) l.
Proof. destruct key; simpl; [done|]. by rewrite filter_true. Qed.

Lemma filter_step_filter filters l k :
  filter_step filters l k = List.filter (key_ok filters k) l.
Proof. destruct k; apply narrow_filter. Qed.

Lemma foldl_filter_step filters keys l :
  foldl (filter_step filters) l keys =
  List.filter (λ t, forallb (λ k, key_ok filters k t) keys) l.
Proof.
  revert l. induction keys as [|k keys IH]; intros l; simpl.
  - by rewrite filter_true.
  - by rewrite IH, filter_step_filter, filter_twice.
Qed.

Lemma forallb_permutation {A} (p : A → bool) l l' :
  l ≡ₚ l' → forallb p l = forallb p l'.
Proof.
  induction 1 as [|x l l' _ IH|x y l|l l' l'' _ IH1 _ IH2]; simpl.
  - done.
  - by rewrite IH.
  - destruct (p x), (p y); done.
  - by rewrite IH1.
Qed.

Lemma apply_metadata_filters_in_source_order tools filters :
  apply_metadata_filters tools filters =
  apply_in_order source_order tools filters.
Proof. reflexivity. Qed.

Lemma has_filters_false filters :
  has_filters filters = false → filters = no_filters.
Proof. destruct filters as [[] [] [] []]; done. Qed.

Lemma apply_metadata_filters_passes tools filters :
  apply_metadata_filters tools filters = List.filter (passes filters) tools.
Proof.
  rewrite apply_metadata_filters_in_source_order. unfold apply_in_order.
  destruct (has_filters filters) eqn:E; cbn [negb].
  - rewrite foldl_filter_step. apply List.filter_ext. intros t.
    unfold passes. simpl. by rewrite andb_true_r, !andb_assoc.
  - apply has_filters_false in E as ->. unfold passes. simpl.
    by rewrite filter_true.
Qed.

(** C7.  With the empty FilterSet the metadata filter returns its
    input; for every FilterSet its result is a subsequence of the input
    in the input's order, the tools that pass the test of every active
    key; and running the four key statements in any order gives the
    same result. *)
Theorem apply_metadata_filters_identity_subsequence_any_order :
  (∀ tools, apply_metadata_filters tools no_filters = tools) ∧
  (∀ tools filters, apply_metadata_filters tools filters `sublist_of` tools) ∧
  (∀ tools filters,
     apply_metadata_filters tools filters
     = List.filter (passes filters) tools) ∧
  (∀ keys tools filters,
     keys ≡ₚ source_order →
     apply_in_order keys tools filters = apply_metadata_filters tools filters).
Proof.
  split_and!.
  - done.
  - intros tools filters. rewrite apply_metadata_filters_passes.
    apply filter_sublist.
  - apply apply_metadata_filters_passes.
  - intros keys tools filters Hperm.
    rewrite apply_metadata_filters_in_source_order. unfold apply_in_order.
    destruct (has_filters filters); cbn [negb]; [|done].
    rewrite !foldl_filter_step. apply List.filter_ext. intros t.
    by apply forallb_permutation.
Qed.

Lemma apply_metadata_filters_any_order_witness :
  apply_in_order [KTorque; KApplicationType; KIpRating; KVoltage]
    sample_catalog (extract_filters "18V cordless nutrunner for 50Nm")
  = apply_metadata_filters sample_catalog
      (extract_filters "18V cordless nutrunner for 50Nm").
Proof.
  apply (proj2 (proj2 (proj2
    apply_metadata_filters_identity_subsequence_any_order))).
  unfold source_order.
  apply Permutation_sym.
  apply (Permutation_rev [KVoltage; KIpRating; KApplicationType; KTorque]).
Defined.

(** ** Clarification payloads (clarification.py) *)

(** C10.  When the filters hold all four keys and more than three tools
    remain, the too-many-results payload has no question and no
    suggestion; and with no filter at all the payload for more than
    three tools can still be without a question. *)
Theorem too_many_results_payload_may_have_no_question :
  (∀ query filters filtered_tools all_tools,
     has_key (f_voltage filters) = true →
     has_key (f_torque filters) = true →
     has_key (f_ip_rating filters) = true →
     has_key (f_application_type filters) = true →
     (3 < length filtered_tools)%nat →
     let payload :=
       generate_clarification_question query filters filtered_tools all_tools
     in
     questions payload = [] ∧ suggestions payload = ∅ ∧
     status payload = "needs_clarification" ∧
     message payload =
       "I found " +:+ pretty (length filtered_tools) +:+
       " tools that might match. Please provide more details:") ∧
  (∃ filtered_tools,
     (3 < length filtered_tools)%nat ∧
     questions (generate_clarification_question "wrench" no_filters
                  filtered_tools filtered_tools) = []).
Proof.
  split.
  - intros query filters filtered_tools all_tools Hv Ht Hi Ha Hlen.
    unfold generate_clarification_question.
    destruct (length filtered_tools) as [|n] eqn:E; [lia|].
    cbn [Nat.eqb]. apply Nat.ltb_lt in Hlen. rewrite Hlen.
    unfold too_many_payload, ask_voltage, ask_application_type, ask_torque,
      ask_ip_rating.
    rewrite Hv, Ht, Hi, Ha. cbn [negb andb fst snd status message questions
      suggestions]. rewrite E. done.
  - exists [bare_tool; bare_tool; bare_tool; bare_tool].
    split; [simpl; lia|]. vm_compute. reflexivity.
Qed.

Lemma too_many_results_payload_witness :
  questions (generate_clarification_question "18V"
               (extract_filters "18V cordless nutrunner for 50Nm IP54")
               (sample_catalog ++ sample_catalog) sample_catalog) = [] ∧
  suggestions (generate_clarification_question "18V"
                 (extract_filters "18V cordless nutrunner for 50Nm IP54")
                 (sample_catalog ++ sample_catalog) sample_catalog) = ∅.
Proof.
  destruct (proj1 too_many_results_payload_may_have_no_question
              "18V" (extract_filters "18V cordless nutrunner for 50Nm IP54")
              (sample_catalog ++ sample_catalog) sample_catalog)
    as (Hq & Hs & _); [vm_compute; reflexivity..| |by split].
  vm_compute. lia.
Defined.

(** ** Clarification policy (clarification.py) *)

Lemma add_tool_keywords_spec acc tool w :
  w ∈ add_tool_keywords acc tool ↔ w ∈ acc ∨ keyword_source tool w.
Proof.
  unfold add_tool_keywords, keyword_source.
  destruct (truthy (tool_name tool)), (truthy (category tool));
    rewrite ?elem_of_union, ?elem_of_singleton, ?elem_of_list_to_set;
    intuition discriminate.
Qed.

Lemma foldl_add_tool_keywords_spec tools acc w :
  w ∈ foldl add_tool_keywords acc tools ↔
  w ∈ acc ∨ ∃ tool, tool ∈ tools ∧ keyword_source tool w.
Proof.
  revert acc. induction tools as [|t tools IH]; intros acc; simpl.
  - split; [by left|]. intros [?|(? & []%elem_of_nil & _)]. done.
  - rewrite IH, add_tool_keywords_spec. split.
    + intros [[?|?]|(tool & ? & ?)]; [by left|right..].
      * exists t. split; [left|done].
      * exists tool. split; [by right|done].
    + intros [?|(tool & [->|?]%elem_of_cons & ?)].
      * by left; left.
      * by left; right.
      * right. by exists tool.
Qed.

(** The keywords are the names, name words and category words of the
    catalog that are not stop-words. *)
Lemma tool_keywords_of_spec tools w :
  w ∈ tool_keywords_of tools ↔
  (w ∉ common_words) ∧ ∃ tool, tool ∈ tools ∧ keyword_source tool w.
Proof.
  unfold tool_keywords_of. rewrite elem_of_filter, foldl_add_tool_keywords_spec.
  split; intros [Hw H]; (split; [exact Hw|]).
  - destruct H as [H|H]; [|exact H]. by apply not_elem_of_empty in H.
  - by right.
Qed.



(** The answer of [needs_clarification] as one decision list. *)
Lemma needs_clarification_answer tools_json cache query filters results :
  let n := length results in
  let specific :=
    has_keyword (_load_tool_names tools_json cache).1 (PyStr.lower query) in
  let generic :=
    has_generic_term (PyStr.split (PyStr.lower query)) ||
    has_vague_phrase (PyStr.lower query) in
  let short := (length (PyStr.split (PyStr.lower query)) <? 2)%nat in
  (needs_clarification tools_json cache query filters results).1 =
    if has_filters filters && (0 <? n)%nat && (n <=? 3)%nat then false
    else if specific && (0 <? n)%nat then (3 <? n)%nat
    else if generic && negb specific && negb (has_filters filters) then true
    else if short && negb (has_filters filters) && negb specific then true
    else if (3 <? n)%nat then true
    else if (n =? 0)%nat then true else false.
Proof.
  intros n specific generic short. subst n specific generic short.
  unfold needs_clarification.
  destruct (_load_tool_names tools_json cache) as [kw c']. cbn [fst].
  repeat match goal with |- context [if ?b then _ else _] =>
    destruct b; cbn [fst]; try reflexivity end.
Qed.



(** ** Retrieval with filters (agents/retriever.py, crew_setup.py) *)

(** With no result the decision is always to clarify. *)
Lemma needs_clarification_no_result tools_json cache query filters :
  (needs_clarification tools_json cache query filters []).1 = true.
Proof.
  rewrite needs_clarification_answer. cbn [length Nat.ltb Nat.leb Nat.eqb].
  rewrite !andb_false_r.
  destruct (_ && negb (has_filters filters)); [done|].
  destruct (_ && negb (has_keyword _ _)); done.
Qed.



(** ** Session store (session_manager.py) *)

Lemma foldl_delete_lookup (l : list string) (m : gmap string Session) k :
  foldl (λ m sid, delete sid m) m l !! k =
  if bool_decide (k ∈ l) then None else m !! k.
Proof.
  revert m. induction l as [|x l IH]; intros m; cbn [foldl].
  - rewrite bool_decide_eq_false_2; [done|]. apply not_elem_of_nil.
  - rewrite IH. destruct (decide (k ∈ l)) as [Hin|Hnin].
    + rewrite !bool_decide_eq_true_2; [done| |done]. by right.
    + rewrite (bool_decide_eq_false_2 (k ∈ l)) by done.
      destruct (decide (k = x)) as [->|Hne].
      * rewrite bool_decide_eq_true_2 by left. apply lookup_delete_eq.
      * rewrite bool_decide_eq_false_2.
        -- by apply lookup_delete_ne.
        -- intros [?|?]%elem_of_cons; done.
Qed.

(** The clean-up removes exactly the sessions that are expired. *)
Lemma cleanup_lookup now (sessions : gmap string Session) k :
  cleanup_expired_sessions now sessions !! k =
  match sessions !! k with
  | Some s => if expired now s then None else Some s
  | None => None
  end.
Proof.
  unfold cleanup_expired_sessions. rewrite foldl_delete_lookup.
  destruct (sessions !! k) as [s|] eqn:Hk.
  - destruct (expired now s) eqn:He.
    + rewrite bool_decide_eq_true_2; [done|].
      apply list_elem_of_bind. exists (k, s). split.
      * rewrite He. by left.
      * by apply elem_of_map_to_list.
    + rewrite bool_decide_eq_false_2; [done|].
      intros ([k' s'] & Hin & Hm)%list_elem_of_bind.
      apply elem_of_map_to_list in Hm.
      destruct (expired now s') eqn:He'.
      * apply list_elem_of_singleton in Hin. subst k'. congruence.
      * by apply elem_of_nil in Hin.
  - by destruct (bool_decide _).
Qed.

Lemma expired_iff now s :
  expired now s = true ↔ SESSION_TIMEOUT < now - last_accessed s.
Proof. unfold expired. apply Z.ltb_lt. Qed.

(** C8.  A lookup first evicts every session idle for more than the
    30 minutes: for the id looked up the result is then a fresh
    session, with an empty history, no filters and a clarification
    count of zero; a session idle for 30 minutes or less is kept, and
    the one looked up has its last access set to the time of the
    lookup. *)
Theorem lookup_evicts_expired_sessions
    (now now1 now2 : Z) (sid : string) (sessions : gmap string Session) :
  let found := (get_session now now1 now2 sid sessions).1 in
  let after := (get_session now now1 now2 sid sessions).2 in
  SESSION_TIMEOUT = 30 * 60 * 1000000 ∧
  after !! sid = Some found ∧
  (∀ s, sessions !! sid = Some s →
        SESSION_TIMEOUT < now - last_accessed s →
        found = (create_session now1 now2 sid ∅).1 ∧
        conversation_history found = [] ∧
        extracted_filters found = no_filters ∧
        clarification_count found = 0 ∧
        last_query found = EmptyString) ∧
  (∀ s, sessions !! sid = Some s →
        now - last_accessed s ≤ SESSION_TIMEOUT →
        found = touch now1 s ∧
        last_accessed found = now1 ∧
        conversation_history found = conversation_history s ∧
        extracted_filters found = extracted_filters s ∧
        clarification_count found = clarification_count s) ∧
  (∀ sid' s', sid' ≠ sid → sessions !! sid' = Some s' →
        (SESSION_TIMEOUT < now - last_accessed s' → after !! sid' = None) ∧
        (now - last_accessed s' ≤ SESSION_TIMEOUT →
         after !! sid' = Some s')).
Proof.
  intros found after. subst found after. unfold get_session.
  pose proof (cleanup_lookup now sessions sid) as Hsid.
  split_and!.
  - reflexivity.
  - destruct (cleanup_expired_sessions now sessions !! sid);
      cbn [create_session fst snd]; apply lookup_insert_eq.
  - intros s Hs Hexp. rewrite Hs in Hsid.
    apply expired_iff in Hexp. rewrite Hexp in Hsid. rewrite Hsid.
    done.
  - intros s Hs Hfresh. rewrite Hs in Hsid.
    assert (expired now s = false) as He.
    { apply not_true_is_false. rewrite expired_iff. lia. }
    rewrite He in Hsid. rewrite Hsid. done.
  - intros sid' s' Hne Hs'.
    pose proof (cleanup_lookup now sessions sid') as Hother.
    rewrite Hs' in Hother.
    assert (∀ m : gmap string Session,
              (match cleanup_expired_sessions now sessions !! sid with
               | Some session =>
                   (touch now1 session,
                    <[sid:=touch now1 session]>
                      (cleanup_expired_sessions now sessions))
               | None =>
                   create_session now1 now2 sid
                     (cleanup_expired_sessions now sessions)
               end).2 !! sid'
              = cleanup_expired_sessions now sessions !! sid') as Hkeep.
    { intros _. destruct (cleanup_expired_sessions now sessions !! sid);
        cbn [create_session snd]; by apply lookup_insert_ne. }
    rewrite (Hkeep ∅), Hother. split.
    + intros Hexp. apply expired_iff in Hexp. by rewrite Hexp.
    + intros Hfresh. assert (expired now s' = false) as ->; [|done].
      apply not_true_is_false. rewrite expired_iff. lia.
Qed.

Lemma lookup_evicts_expired_sessions_witness :
  conversation_history
    (get_session 1800000001 1800000002 1800000003 "abc"
       {[ "abc" := stale_session ]}).1 = [] ∧
  (get_session 1800000000 1800000002 1800000003 "abc"
     {[ "abc" := stale_session ]}).1 = touch 1800000002 stale_session.
Proof.
  split.
  - destruct (lookup_evicts_expired_sessions 1800000001 1800000002
                1800000003 "abc" {[ "abc" := stale_session ]})
      as (_ & _ & Hexpired & _).
    destruct (Hexpired stale_session) as (_ & Hhistory & _).
    + apply lookup_singleton_eq.
    + vm_compute. reflexivity.
    + exact Hhistory.
  - destruct (lookup_evicts_expired_sessions 1800000000 1800000002
                1800000003 "abc" {[ "abc" := stale_session ]})
      as (_ & _ & _ & Hkept & _).
    destruct (Hkept stale_session) as (Hfound & _).
    + apply lookup_singleton_eq.
    + vm_compute. discriminate.
    + exact Hfound.
Defined.

(** ** The too-many-results payload (clarification.py) *)

Lemma sorted_set_length l : length (sorted_set l) = length (remove_dups l).
Proof. unfold sorted_set. by rewrite merge_sort_Permutation. Qed.

Lemma remove_dups_fmap_inj {A B} `{EqDecision A, EqDecision B}
    (f : A → B) `{!Inj (=) (=) f} (l : list A) :
  remove_dups (f <$> l) = f <$> remove_dups l.
Proof.
  induction l as [|x l IH]; [done|]. rewrite fmap_cons.
  cbn [remove_dups]. rewrite IH.
  destruct (decide_rel elem_of x l) as [Hin|Hnin],
    (decide_rel elem_of (f x) (f <$> l)) as [Hin'|Hnin']; try done.
  - exfalso. apply Hnin'. by apply list_elem_of_fmap_2.
  - exfalso. apply Hnin. by apply (list_elem_of_fmap_inj f).
Qed.

Lemma sorted_set_distinct (g : Tool → string) (l : list Tool) :
  length (sorted_set (g <$> l))
  = length (remove_dups ((λ t, JStr (g t)) <$> l)).
Proof.
  rewrite sorted_set_length.
  change (λ t, JStr (g t)) with (JStr ∘ g).
  rewrite (list_fmap_compose g JStr).
  assert (Inj (=) (=) JStr) by (intros ?? [= ->]; done).
  by rewrite (remove_dups_fmap_inj JStr), length_fmap.
Qed.

(** The questions of the payload are the first two proposed
    dimensions, in the order voltage, application type, torque, IP
    rating. *)
Lemma too_many_payload_questions filters tools :
  questions (too_many_payload filters tools) =
  take 2 (dimension_question <$>
          List.filter (proposes filters tools) dimension_order).
Proof.
  unfold too_many_payload, ask_voltage, ask_application_type, ask_torque,
    ask_ip_rating.
  rewrite !sorted_set_distinct. fold (torque_values tools).
  unfold dimension_order. cbn [List.filter].
  unfold proposes, proposes_early, specified.
  change (length (remove_dups ((λ t, JStr (default "N/A" (voltage t)))
            <$> List.filter (λ t, truthy (voltage t)) tools)))
    with (distinct_values DVoltage tools).
  change (length (remove_dups
            ((λ t, JStr (default "N/A" (application_type t))) <$> tools)))
    with (distinct_values DApplicationType tools).
  change (length (remove_dups ((λ t, JStr (default "N/A" (ip_rating t)))
            <$> List.filter (λ t, truthy (ip_rating t)) tools)))
    with (distinct_values DIpRating tools).
  generalize (1 <? distinct_values DVoltage tools)%nat,
    (1 <? distinct_values DApplicationType tools)%nat,
    (1 <? distinct_values DIpRating tools)%nat,
    (torque_values tools), (has_key (f_voltage filters)),
    (has_key (f_application_type filters)), (has_key (f_torque filters)),
    (has_key (f_ip_rating filters)).
  intros v a i [|x xs] kv ka kt ki; destruct v, a, i, kv, ka, kt, ki;
    reflexivity.
Qed.

Lemma dimension_question_inj d d' :
  dimension_question d = dimension_question d' → d = d'.
Proof. destruct d, d'; done. Qed.

Lemma proposes_spec filters tools d :
  proposes filters tools d = true →
  specified d filters = false ∧
  match d with
  | DTorque => torque_values tools ≠ []
  | _ => (1 < distinct_values d tools)%nat
  end.
Proof.
  assert (∀ d, proposes_early filters tools d = true →
            specified d filters = false ∧
            match d with
            | DTorque => torque_values tools ≠ []
            | _ => (1 < distinct_values d tools)%nat
            end) as Hearly.
  { intros d'. unfold proposes_early.
    intros [Hs Hv]%andb_true_iff. apply negb_true_iff in Hs.
    split; [done|].
    destruct d'; try (by apply Nat.ltb_lt).
    apply negb_true_iff in Hv. by apply bool_decide_eq_false in Hv. }
  destruct d; try apply Hearly.
  unfold proposes. intros [H _]%andb_true_iff. by apply Hearly.
Qed.

(** C4, amended.  For more than three results the payload has the
    status "needs_clarification" and at most two questions: the first
    two proposed dimensions in the order voltage, application type,
    torque, IP rating.  An unspecified voltage, application type or IP
    rating is proposed with more than one distinct value among the
    candidates, an unspecified torque as soon as one candidate has a
    usable torque range, and the IP rating only when no earlier
    dimension is proposed. *)
Theorem too_many_results_payload_dimensions
    (query : string) (filters : Filters) (filtered_tools all_tools : list Tool) :
  (3 < length filtered_tools)%nat →
  let payload :=
    generate_clarification_question query filters filtered_tools all_tools in
  status payload = "needs_clarification" ∧
  questions payload =
    take 2 (dimension_question <$>
            List.filter (proposes filters filtered_tools) dimension_order) ∧
  (length (questions payload) ≤ 2)%nat ∧
  ∀ d, dimension_question d ∈ questions payload →
       specified d filters = false ∧
       match d with
       | DTorque => torque_values filtered_tools ≠ []
       | _ => (1 < distinct_values d filtered_tools)%nat
       end.
Proof.
  intros Hlen payload.
  assert (payload = too_many_payload filters filtered_tools) as ->.
  { subst payload. unfold generate_clarification_question.
    destruct (length filtered_tools) as [|n]; [lia|].
    cbn [Nat.eqb]. apply Nat.ltb_lt in Hlen. by rewrite Hlen. }
  pose proof (too_many_payload_questions filters filtered_tools) as Hq.
  split_and!.
  - done.
  - exact Hq.
  - rewrite Hq, length_take. lia.
  - intros d Hd. rewrite Hq in Hd.
    apply subseteq_take in Hd.
    apply list_elem_of_fmap in Hd as (d' & Heq & Hin).
    apply dimension_question_inj in Heq as <-.
    apply list_elem_of_In, filter_In in Hin as [_ Hp].
    by apply proposes_spec.
Qed.

Lemma too_many_results_payload_dimensions_witness :
  questions (generate_clarification_question "nutrunner" no_filters
               (sample_catalog ++ [same_range_tool]) sample_catalog)
  = ["What voltage do you need?"; "Is this for manual use or automation?"].
Proof.
  destruct (too_many_results_payload_dimensions "nutrunner" no_filters
              (sample_catalog ++ [same_range_tool]) sample_catalog)
    as (_ & Hq & _).
  - simpl. lia.
  - rewrite Hq. vm_compute. reflexivity.
Defined.

(** C4, as stated, fails: four candidates with one and the same torque
    range and no filter get the torque question, with one distinct
    value in that dimension. *)
Lemma torque_proposed_with_one_distinct_value :
  (3 < length same_range_tools)%nat ∧
  questions (generate_clarification_question "nutrunner" no_filters
               same_range_tools same_range_tools)
    = ["What torque range do you require?"] ∧
  distinct_values DTorque same_range_tools = 1%nat ∧
  ¬ proposed_only_if_discriminating no_filters same_range_tools
      (generate_clarification_question "nutrunner" no_filters
         same_range_tools same_range_tools).
Proof.
  assert (questions (generate_clarification_question "nutrunner" no_filters
                       same_range_tools same_range_tools)
          = ["What torque range do you require?"]) as Hq
    by (vm_compute; reflexivity).
  assert (distinct_values DTorque same_range_tools = 1%nat) as Hd
    by (vm_compute; reflexivity).
  split_and!; [simpl; lia|exact Hq|exact Hd|].
  intros H. destruct (H DTorque) as [_ Hlt].
  - rewrite Hq. by left.
  - rewrite Hd in Hlt. lia.
Qed.

(** ** Extraction of the recommender's JSON object (crew_setup.py) *)

Lemma not_brace c :
  c ≠ JsonRegex.lbrace → c ≠ JsonRegex.rbrace → is_brace c = false.
Proof.
  intros H1 H2. unfold is_brace.
  by rewrite !bool_decide_eq_false_2.
Qed.

Lemma is_brace_false c :
  is_brace c = false → c ≠ JsonRegex.lbrace ∧ c ≠ JsonRegex.rbrace.
Proof.
  unfold is_brace. intros [H1 H2]%orb_false_iff.
  split; intros ->; by rewrite bool_decide_eq_true_2 in *.
Qed.

(** What the pattern matches after the opening brace is a shallow body
    and the closing brace. *)
Lemma object_tail_sound s :
  (∀ t, JsonRegex.object_tail false s = Some t →
        ∃ b rest, shallow_body b ∧
                  t = b +:+ String JsonRegex.rbrace EmptyString ∧
                  s = t +:+ rest) ∧
  (∀ t, JsonRegex.object_tail true s = Some t →
        ∃ g b rest, no_brace g ∧ shallow_body b ∧
                    t = g +:+ String JsonRegex.rbrace
                               (b +:+ String JsonRegex.rbrace EmptyString) ∧
                    s = t +:+ rest).
Proof.
  induction s as [|c s [IH1 IH2]]; [done|].
  cbn [JsonRegex.object_tail].
  destruct (decide (c = JsonRegex.lbrace)) as [->|Hl]; [split|].
  - intros t (t' & Ht' & ->)%fmap_Some.
    destruct (IH2 _ Ht') as (g & b & rest & Hg & Hb & -> & ->).
    exists (String JsonRegex.lbrace (g +:+ String JsonRegex.rbrace b)), rest.
    split_and!; [by constructor| |done].
    snorm. by rewrite sapp_assoc.
  - done.
  - destruct (decide (c = JsonRegex.rbrace)) as [->|Hr]; split.
    + intros t [= <-]. exists EmptyString, s. split_and!; [constructor|done..].
    + intros t (t' & Ht' & ->)%fmap_Some.
      destruct (IH1 _ Ht') as (b & rest & Hb & -> & ->).
      by exists EmptyString, b, rest.
    + intros t (t' & Ht' & ->)%fmap_Some.
      destruct (IH1 _ Ht') as (b & rest & Hb & -> & ->).
      exists (String c b), rest. split_and!; [|done..].
      constructor; [by apply not_brace|done].
    + intros t (t' & Ht' & ->)%fmap_Some.
      destruct (IH2 _ Ht') as (g & b & rest & Hg & Hb & -> & ->).
      exists (String c g), b, rest. split_and!; [|done..].
      unfold no_brace in *. simpl. by rewrite (not_brace c), Hg.
Qed.

Lemma object_tail_group g rest :
  no_brace g →
  JsonRegex.object_tail true (g +:+ String JsonRegex.rbrace rest) =
  (λ t, g +:+ String JsonRegex.rbrace t) <$> JsonRegex.object_tail false rest.
Proof.
  unfold no_brace. induction g as [|c g IH]; intros Hg.
  - snorm. cbn [JsonRegex.object_tail].
    rewrite decide_False by done. rewrite decide_True by done.
    by destruct (JsonRegex.object_tail false rest).
  - simpl in Hg. apply andb_true_iff in Hg as [Hc Hg].
    apply negb_true_iff, is_brace_false in Hc as [Hl Hr].
    snorm. cbn [JsonRegex.object_tail].
    rewrite !decide_False by done. rewrite (IH Hg).
    by destruct (JsonRegex.object_tail false rest).
Qed.

Lemma object_tail_complete b rest :
  shallow_body b →
  JsonRegex.object_tail false (b +:+ String JsonRegex.rbrace rest)
  = Some (b +:+ String JsonRegex.rbrace EmptyString).
Proof.
  induction 1 as [|c b Hc _ IH|g b Hg _ IH].
  - snorm. cbn [JsonRegex.object_tail].
    rewrite decide_False by done. by rewrite decide_True.
  - apply is_brace_false in Hc as [Hl Hr].
    snorm. cbn [JsonRegex.object_tail].
    rewrite !decide_False by done. by rewrite IH.
  - snorm. cbn [JsonRegex.object_tail]. rewrite decide_True by done.
    rewrite !sapp_assoc. snorm.
    rewrite (object_tail_group _ _ Hg), IH. done.
Qed.

(** The anchored pattern matches exactly the shallow objects. *)
Lemma object_at_Some s m :
  JsonRegex.object_at s = Some m ↔
  shallow_object m ∧ ∃ rest, s = m +:+ rest.
Proof.
  split.
  - destruct s as [|c s]; [done|]. cbn [JsonRegex.object_at].
    destruct (decide (c = JsonRegex.lbrace)) as [->|]; [|done].
    intros (t & Ht & ->)%fmap_Some.
    destruct (proj1 (object_tail_sound s) _ Ht) as (b & rest & Hb & -> & ->).
    split; [by exists b|by exists rest].
  - intros [(b & Hb & ->) [rest ->]]. snorm.
    cbn [JsonRegex.object_at]. rewrite decide_True by done.
    rewrite sapp_assoc. snorm. by rewrite object_tail_complete.
Qed.


Lemma search_object_none s :
  PyStr.re_search JsonRegex.object_at s = None ↔
  ∀ pre m post, s = pre +:+ m +:+ post → ¬ shallow_object m.
Proof.
  rewrite re_search_None. split.
  - intros H pre m post -> Hm.
    specialize (H pre (m +:+ post) eq_refl).
    assert (JsonRegex.object_at (m +:+ post) = Some m) as Hsome
      by (apply object_at_Some; eauto).
    congruence.
  - intros H pre suf ->.
    destruct (JsonRegex.object_at suf) as [m|] eqn:E; [|done].
    apply object_at_Some in E as [Hm [rest ->]].
    by destruct (H pre m rest).
Qed.








(** ** Subset-constrained ranking (agents/retriever.py) *)

(** C1, on a catalog with two identical entries.  The indices of the
    filtered tools are looked up by value, so both entries get position
    0: a subset made of the second entry alone returns the first entry,
    which is not in it; with both entries in the subset and the second
    ranked first, the first one is returned, and asking for two results
    returns one. *)
Theorem identical_tools_are_aliased :
  twin_catalog = [first_twin; second_twin] ∧
  semantic_search_on_subset twin_ranking "nutrunner" [second_twin]
    twin_catalog 1 = Some [first_twin] ∧
  (first_twin ∉ [second_twin]) ∧
  semantic_search_on_subset twin_ranking "nutrunner" twin_catalog
    twin_catalog 1 = Some [first_twin] ∧
  semantic_search_on_subset twin_ranking "nutrunner" twin_catalog
    twin_catalog 2 = Some [first_twin].
Proof.
  split_and!; try (vm_compute; reflexivity).
  intros H. apply list_elem_of_singleton in H. discriminate.
Qed.

(** [l.index(x)] is the first position of an element equal to [x]. *)
Lemma index_first {A} (eqb : A → A → bool) x (l : list A) i y :
  l !! i = Some y → eqb y x = true →
  (∀ j y', (j < i)%nat → l !! j = Some y' → eqb y' x = false) →
  PyList.index eqb x l = Some i.
Proof.
  revert i. induction l as [|z l IH]; intros i Hi Hy Hbefore; [done|].
  destruct i as [|i]; simpl in *.
  - injection Hi as ->. by rewrite Hy.
  - rewrite (Hbefore 0%nat z) by (done || lia).
    rewrite (IH i Hi Hy); [done|].
    intros j y' Hj Hy'. apply (Hbefore (S j)); [lia|done].
Qed.

Lemma objects_lookup tools i :
  objects tools !! i = (λ t, {| obj_id := i; obj_val := t |}) <$> tools !! i.
Proof. unfold objects. apply list_lookup_imap. Qed.

Lemma objects_length tools : length (objects tools) = length tools.
Proof. unfold objects. apply length_imap. Qed.

Lemma objects_elem_of tools o :
  o ∈ objects tools ↔ tools !! obj_id o = Some (obj_val o).
Proof.
  rewrite list_elem_of_lookup. split.
  - intros [i Hi]. rewrite objects_lookup in Hi.
    destruct (tools !! i) as [t|] eqn:E; [|done].
    injection Hi as <-. done.
  - intros H. exists (obj_id o). rewrite objects_lookup, H. by destruct o.
Qed.

(** Without identical entries an object of the catalog is found at its
    own position. *)
Lemma index_objects tools o :
  NoDup tools → o ∈ objects tools →
  PyList.index py_eq o (objects tools) = Some (obj_id o).
Proof.
  intros Hnd Ho. pose proof Ho as Hval. apply objects_elem_of in Hval.
  apply (index_first _ _ _ _ o).
  - rewrite objects_lookup, Hval. by destruct o.
  - unfold py_eq, ToolObj_py_eq. by apply bool_decide_eq_true_2.
  - intros j y' Hj Hy'. rewrite objects_lookup in Hy'.
    destruct (tools !! j) as [t|] eqn:E; [|done]. injection Hy' as <-.
    unfold py_eq, ToolObj_py_eq. apply bool_decide_eq_false_2. simpl.
    intros ->. pose proof (NoDup_lookup _ _ _ _ Hnd E Hval). lia.
Qed.

Lemma filtered_indices_positions (tools : list Tool)
    (filtered : list ToolObj) :
  NoDup tools → (∀ o, o ∈ filtered → o ∈ objects tools) →
  mapM (λ tool, PyList.index py_eq tool (objects tools)) filtered
  = Some (obj_id <$> filtered).
Proof.
  intros Hnd Hsub. apply mapM_Some.
  induction filtered as [|o filtered IH]; [constructor|].
  rewrite fmap_cons. constructor.
  - apply index_objects; [done|]. apply Hsub. by left.
  - apply IH. intros o' Ho'. apply Hsub. by right.
Qed.

Lemma getitem_position tools o :
  o ∈ objects tools → PyList.getitem (objects tools) (position o) = Some o.
Proof.
  intros Ho. unfold PyList.getitem, position.
  assert ((0 <=? Z.of_nat (obj_id o)) = true) as -> by (apply Z.leb_le; lia).
  rewrite Nat2Z.id. apply objects_elem_of in Ho.
  rewrite objects_lookup, Ho. by destruct o.
Qed.

(** The ranked positions that belong to the subset give back objects
    of the subset, in the order of the ranking. *)
Lemma getitem_survivors (tools : list Tool) (filtered : list ToolObj)
    (l : list Z) :
  (∀ o, o ∈ filtered → o ∈ objects tools) →
  Forall (λ idx, idx ∈ position <$> filtered) l →
  ∃ r, mapM (PyList.getitem (objects tools)) l = Some r ∧
       position <$> r = l ∧ ∀ o, o ∈ r → o ∈ filtered.
Proof.
  intros Hsub. induction 1 as [|idx l Hidx _ (r & Hr & Hpos & Hin)].
  - exists []. split_and!; [done..|]. by intros o ?%elem_of_nil.
  - apply list_elem_of_fmap in Hidx as (o & -> & Ho).
    exists (o :: r). split_and!.
    + cbn [mapM]. rewrite (getitem_position tools o (Hsub _ Ho)), Hr. done.
    + by rewrite fmap_cons, Hpos.
    + intros o' [->|?]%elem_of_cons; auto.
Qed.

Lemma slice_to_positive {A} (k : Z) (l : list A) :
  1 ≤ k → PyList.slice_to k l = take (Z.to_nat k) l.
Proof.
  intros Hk. unfold PyList.slice_to.
  by assert ((0 <=? k) = true) as -> by (apply Z.leb_le; lia).
Qed.

(** On a catalog without identical entries the claim of C1 holds:
    the ranking restricted to the subset returns objects of the subset
    only, in the order of the ranking, the first [top_k] of them, or
    the first [top_k] objects of the subset when the ranking has none;
    and the result is not empty. *)
Lemma subset_search_on_distinct_tools
    (nearest : string → Z → list Z) (tools : list Tool) (query : string)
    (filtered : list ToolObj) (top_k : Z) :
  NoDup tools → filtered ≠ [] →
  (∀ o, o ∈ filtered → o ∈ objects tools) → 1 ≤ top_k →
  ∃ r, semantic_search_on_subset nearest query filtered (objects tools) top_k
         = Some r ∧
       r ≠ [] ∧ (∀ o, o ∈ r → o ∈ filtered) ∧
       (List.filter (λ idx, bool_decide (idx ∈ position <$> filtered))
          (nearest query (Z.of_nat (length tools))) ≠ [] →
        position <$> r =
          take (Z.to_nat top_k)
            (List.filter (λ idx, bool_decide (idx ∈ position <$> filtered))
               (nearest query (Z.of_nat (length tools))))) ∧
       (List.filter (λ idx, bool_decide (idx ∈ position <$> filtered))
          (nearest query (Z.of_nat (length tools))) = [] →
        r = take (Z.to_nat top_k) filtered).
Proof.
  intros Hnd Hne Hsub Hk. unfold semantic_search_on_subset.
  rewrite (filtered_indices_positions _ _ Hnd Hsub). cbn [mbind option_bind].
  rewrite objects_length.
  rewrite <- (list_fmap_compose obj_id Z.of_nat).
  change (Z.of_nat ∘ obj_id) with position.
  set (survivors :=
         List.filter (λ idx, bool_decide (idx ∈ position <$> filtered))
           (nearest query (Z.of_nat (length tools)))).
  rewrite !slice_to_positive by done.
  destruct (getitem_survivors tools filtered
              (take (Z.to_nat top_k) survivors) Hsub) as (r & Hr & Hpos & Hin).
  { apply Forall_take, Forall_forall. intros idx Hidx.
    apply list_elem_of_In, filter_In in Hidx as [_ Hidx].
    by apply bool_decide_eq_true in Hidx. }
  rewrite Hr. cbn [mbind option_bind].
  destruct r as [|o r].
  - exists (take (Z.to_nat top_k) filtered). split_and!.
    + done.
    + destruct filtered as [|f filtered]; [done|].
      destruct (Z.to_nat top_k) as [|n] eqn:E; [lia|done].
    + intros o Ho. by apply subseteq_take in Ho.
    + intros Hs. symmetry in Hpos. apply take_nil_inv in Hpos as [?|?];
        [lia|done].
    + done.
  - exists (o :: r). split_and!; [done..| |].
    + done.
    + intros Hs. rewrite Hs, take_nil in Hpos. done.
Qed.

(** On the sample catalog, whose entries differ: the two nutrunners are
    the subset, the ranking puts the verification system first, and the
    nearest nutrunner comes back. *)
Example subset_search_sample :
  semantic_search_on_subset (λ _ _, [3; 1; 0; 2]) "nutrunner"
    (take 2 (objects sample_catalog)) (objects sample_catalog) 1
  = (λ o, [o]) <$> objects sample_catalog !! 1%nat.
Proof. vm_compute. reflexivity. Qed.

(** * Further properties *)

(** ** Filter extraction: the numeric keys (query_parser.py) *)

Lemma all_chars_app f a b :
  all_chars f (a +:+ b) = all_chars f a && all_chars f b.
Proof.
  induction a as [|c a IH]; [done|]. snorm. simpl.
  by rewrite IH, andb_assoc.
Qed.








(** ** Filter extraction: the normal form of the values *)


















(** ** Metadata filter: algebra and membership (query_parser.py) *)

Lemma merge_passes a b tool :
  passes (merge_filters a b) tool = true → passes b tool = true.
Proof.
  unfold passes, merge_filters. cbn [f_voltage f_ip_rating
    f_application_type f_torque].
  intros [[[H1 H2]%andb_true_iff H3]%andb_true_iff H4]%andb_true_iff.
  destruct (f_voltage b), (f_ip_rating b), (f_application_type b),
    (f_torque b); simpl in *;
    rewrite ?H1, ?H2, ?H3, ?H4; reflexivity.
Qed.

Lemma filter_implies_sublist {A} (p q : A → bool) l :
  (∀ x, p x = true → q x = true) →
  List.filter p l `sublist_of` List.filter q l.
Proof.
  intros Hpq. induction l as [|x l IH]; simpl; [constructor|].
  destruct (p x) eqn:Hp.
  - rewrite (Hpq _ Hp). by constructor.
  - destruct (q x); [by constructor|done].
Qed.

(** X3.  Filtering twice with one FilterSet is filtering once, and two
    FilterSets can be applied in either order. *)
Theorem apply_metadata_filters_idempotent_and_commutes
    (tools : list Tool) (a b : Filters) :
  apply_metadata_filters (apply_metadata_filters tools a) a
    = apply_metadata_filters tools a ∧
  apply_metadata_filters (apply_metadata_filters tools a) b
    = apply_metadata_filters (apply_metadata_filters tools b) a.
Proof.
  rewrite !apply_metadata_filters_passes, !filter_twice. split.
  - apply List.filter_ext. intros t. by destruct (passes a t).
  - apply List.filter_ext. intros t. apply andb_comm.
Qed.

(** X4.  Merging accumulated filters under the filters of the current
    turn can only narrow what the current filters select: the tools
    that pass the merged FilterSet are a subsequence of those that pass
    the current one, and pass it again. *)
Theorem merged_filters_narrow_current_filters
    (tools : list Tool) (accumulated current : Filters) :
  apply_metadata_filters tools (merge_filters accumulated current)
    `sublist_of` apply_metadata_filters tools current ∧
  apply_metadata_filters
    (apply_metadata_filters tools (merge_filters accumulated current)) current
    = apply_metadata_filters tools (merge_filters accumulated current).
Proof.
  rewrite !apply_metadata_filters_passes, filter_twice. split.
  - apply filter_implies_sublist. intros t. apply merge_passes.
  - apply List.filter_ext. intros t.
    destruct (passes (merge_filters accumulated current) t) eqn:E; [|done].
    by rewrite (merge_passes _ _ _ E).
Qed.




(** ** Retrieval by value (agents/retriever.py) *)

Lemma index_Some {A} (eqb : A → A → bool) x (l : list A) i :
  PyList.index eqb x l = Some i → ∃ y, l !! i = Some y ∧ eqb y x = true.
Proof.
  revert i. induction l as [|z l IH]; intros i; [done|]. simpl.
  destruct (eqb z x) eqn:E.
  - intros [= <-]. by exists z.
  - intros (j & Hj & ->)%fmap_Some. by apply IH.
Qed.

Lemma index_None {A} (eqb : A → A → bool) x (l : list A) :
  PyList.index eqb x l = None ↔ ∀ y, y ∈ l → eqb y x = false.
Proof.
  induction l as [|z l IH]; simpl.
  - split; [|done]. by intros _ y ?%elem_of_nil.
  - destruct (eqb z x) eqn:E.
    + split; [done|]. intros H. rewrite (H z) in E; [done|by left].
    + rewrite fmap_None, IH. split.
      * intros H y [->|?]%elem_of_cons; auto.
      * intros H y Hy. apply H. by right.
Qed.

Lemma tool_index_Some (all_tools : list Tool) tool i :
  PyList.index py_eq tool all_tools = Some i → all_tools !! i = Some tool.
Proof.
  intros (y & Hy & Heq)%index_Some.
  unfold py_eq, Tool_py_eq in Heq. apply bool_decide_eq_true in Heq.
  by subst y.
Qed.

Lemma tool_index_None (all_tools : list Tool) tool :
  PyList.index py_eq tool all_tools = None ↔ tool ∉ all_tools.
Proof.
  rewrite index_None. unfold py_eq, Tool_py_eq. split.
  - intros H Hin. specialize (H _ Hin).
    by rewrite bool_decide_eq_true_2 in H.
  - intros H y Hy. apply bool_decide_eq_false_2. by intros ->.
Qed.

Lemma filtered_indices_by_value (filtered all_tools : list Tool) :
  (∀ t, t ∈ filtered → t ∈ all_tools) →
  ∃ idxs, mapM (λ tool, PyList.index py_eq tool all_tools) filtered
            = Some idxs ∧
          ∀ i, i ∈ idxs → ∃ t, t ∈ filtered ∧ all_tools !! i = Some t.
Proof.
  induction filtered as [|t filtered IH]; intros Hsub.
  - exists []. split; [done|]. by intros i ?%elem_of_nil.
  - destruct IH as (idxs & Hm & Hidx).
    { intros t' Ht'. apply Hsub. by right. }
    destruct (PyList.index py_eq t all_tools) as [i|] eqn:Hi.
    + exists (i :: idxs). split.
      * cbn [mapM]. rewrite Hi, Hm. done.
      * intros j [->|Hj]%elem_of_cons.
        -- exists t. split; [by left|by apply tool_index_Some].
        -- destruct (Hidx j Hj) as (t' & ? & ?). exists t'.
           split; [by right|done].
    + apply tool_index_None in Hi. destruct Hi. apply Hsub. by left.
Qed.

Lemma getitem_of_nat {A} (l : list A) i x :
  l !! i = Some x → PyList.getitem l (Z.of_nat i) = Some x.
Proof.
  intros H. unfold PyList.getitem.
  assert ((0 <=? Z.of_nat i) = true) as -> by (apply Z.leb_le; lia).
  by rewrite Nat2Z.id.
Qed.

Lemma getitem_matched (filtered all_tools : list Tool) (idxs : list nat)
    (l : list Z) :
  (∀ i, i ∈ idxs → ∃ t, t ∈ filtered ∧ all_tools !! i = Some t) →
  Forall (λ idx, idx ∈ Z.of_nat <$> idxs) l →
  ∃ r, mapM (PyList.getitem all_tools) l = Some r ∧
       length r = length l ∧ ∀ t, t ∈ r → t ∈ filtered.
Proof.
  intros Hidx. induction 1 as [|idx l Hin _ (r & Hr & Hlen & Hsub)].
  - exists []. split_and!; [done..|]. by intros t ?%elem_of_nil.
  - apply list_elem_of_fmap in Hin as (i & -> & Hi).
    destruct (Hidx i Hi) as (t & Ht & Hl).
    exists (t :: r). split_and!.
    + cbn [mapM]. rewrite (getitem_of_nat _ _ _ Hl), Hr. done.
    + simpl. by rewrite Hlen.
    + intros t' [->|?]%elem_of_cons; auto.
Qed.

Lemma slice_to_subseteq {A} (k : Z) (l : list A) x :
  x ∈ PyList.slice_to k l → x ∈ l.
Proof.
  unfold PyList.slice_to. destruct (0 <=? k); apply subseteq_take.
Qed.

Lemma slice_to_length {A} (k : Z) (l : list A) :
  0 ≤ k → (length (PyList.slice_to k l) ≤ Z.to_nat k)%nat.
Proof.
  intros Hk. unfold PyList.slice_to.
  assert ((0 <=? k) = true) as -> by (apply Z.leb_le; lia).
  rewrite length_take. lia.
Qed.

(** The search on a subset of tools compared by value: it raises
    exactly when a tool of the subset is not in the catalog, and
    otherwise returns tools of the subset. *)
Lemma subset_search_value (nearest : string → Z → list Z) (query : string)
    (filtered all_tools : list Tool) (top_k : Z) :
  (∀ t, t ∈ filtered → t ∈ all_tools) →
  ∃ r, semantic_search_on_subset nearest query filtered all_tools top_k
         = Some r ∧
       (∀ t, t ∈ r → t ∈ filtered) ∧
       (0 ≤ top_k → (length r ≤ Z.to_nat top_k)%nat) ∧
       (1 ≤ top_k → filtered ≠ [] → r ≠ []).
Proof.
  intros Hsub. unfold semantic_search_on_subset.
  destruct (filtered_indices_by_value _ _ Hsub) as (idxs & -> & Hidx).
  cbn [mbind option_bind].
  set (matched := List.filter _ _).
  destruct (getitem_matched filtered all_tools idxs
              (PyList.slice_to top_k matched) Hidx) as (r & -> & Hlen & Hr).
  { apply Forall_forall. intros idx Hin. apply slice_to_subseteq in Hin.
    apply list_elem_of_In, filter_In in Hin as [_ Hin].
    by apply bool_decide_eq_true in Hin. }
  cbn [mbind option_bind]. destruct r as [|t r].
  - exists (PyList.slice_to top_k filtered). split_and!; [done| | |].
    + intros t. apply slice_to_subseteq.
    + apply slice_to_length.
    + intros Hk Hne. rewrite slice_to_positive by done.
      destruct filtered as [|f filtered]; [done|].
      destruct (Z.to_nat top_k) eqn:E; [lia|done].
  - exists (t :: r). split_and!; [done..| |done].
    intros Hk. rewrite Hlen. by apply slice_to_length.
Qed.

(** X6.  Whatever the catalog and the ranking, the search on a subset
    whose tools are all in the catalog does not raise and returns tools
    of the subset: at most [top_k] of them for [top_k >= 0], and at
    least one when the subset is not empty and [top_k >= 1]. *)
Theorem subset_search_returns_tools_of_the_subset
    (nearest : string → Z → list Z) (query : string)
    (filtered all_tools : list Tool) (top_k : Z) :
  (∀ t, t ∈ filtered → t ∈ all_tools) →
  ∃ r, semantic_search_on_subset nearest query filtered all_tools top_k
         = Some r ∧
       (∀ t, t ∈ r → t ∈ filtered) ∧
       (0 ≤ top_k → (length r ≤ Z.to_nat top_k)%nat) ∧
       (1 ≤ top_k → filtered ≠ [] → r ≠ []).
Proof. apply subset_search_value. Qed.

Lemma subset_search_returns_tools_witness :
  ∃ r, semantic_search_on_subset (λ _ _, [3; 2; 1; 0]) "nutrunner"
         (take 2 sample_catalog) sample_catalog 1 = Some r ∧
       (∀ t, t ∈ r → t ∈ take 2 sample_catalog) ∧
       (0 ≤ 1 → (length r ≤ Z.to_nat 1)%nat) ∧
       (1 ≤ 1 → take 2 sample_catalog ≠ [] → r ≠ []).
Proof.
  apply (subset_search_returns_tools_of_the_subset (λ _ _, [3; 2; 1; 0])
           "nutrunner" (take 2 sample_catalog) sample_catalog 1).
  intros t Ht. apply (subseteq_take 2 sample_catalog). exact Ht.
Defined.

(** X7.  The search on a subset raises (the ValueError of
    [list.index]) exactly when some tool of the subset is not in the
    catalog. *)
Theorem subset_search_raises_iff_foreign_tool
    (nearest : string → Z → list Z) (query : string)
    (filtered all_tools : list Tool) (top_k : Z) :
  semantic_search_on_subset nearest query filtered all_tools top_k = None ↔
  ∃ t, t ∈ filtered ∧ t ∉ all_tools.
Proof.
  split.
  - intros Hnone.
    destruct (decide (Forall (λ t, t ∈ all_tools) filtered)) as [Hall|Hex].
    + rewrite Forall_forall in Hall.
      destruct (subset_search_value nearest query filtered all_tools top_k
                  Hall) as (r & Hr & _). congruence.
    + apply not_Forall_Exists in Hex; [|apply _].
      apply Exists_exists in Hex as (t & Ht & Hnot). by exists t.
  - intros (t & Ht & Hnot). unfold semantic_search_on_subset.
    assert (mapM (λ tool, PyList.index py_eq tool all_tools) filtered = None)
      as ->; [|done].
    apply mapM_None, Exists_exists. exists t. split; [done|].
    by apply tool_index_None.
Qed.

Lemma subset_search_raises_witness :
  semantic_search_on_subset (λ _ _, [0; 1; 2; 3]) "nutrunner" [bare_tool]
    sample_catalog 1 = None.
Proof.
  apply (proj2 (subset_search_raises_iff_foreign_tool (λ _ _, [0; 1; 2; 3])
                  "nutrunner" [bare_tool] sample_catalog 1)).
  exists bare_tool. split; [by left|].
  intros Hin. unfold sample_catalog in Hin.
  repeat (apply elem_of_cons in Hin as [Hin|Hin]; [discriminate|]).
  by apply elem_of_nil in Hin.
Defined.

Lemma getitem_elem_of {A} (l : list A) i x :
  PyList.getitem l i = Some x → x ∈ l.
Proof.
  unfold PyList.getitem. destruct (0 <=? i); [apply list_elem_of_lookup_2|].
  destruct (0 <=? _); [apply list_elem_of_lookup_2|done].
Qed.

Lemma mapM_getitem_elem_of {A} (l : list A) idxs r :
  mapM (PyList.getitem l) idxs = Some r → ∀ x, x ∈ r → x ∈ l.
Proof.
  intros H%mapM_Some_1 x Hx.
  apply (Forall2_Forall_r _ (λ x, x ∈ l)) in H.
  - rewrite Forall_forall in H. by apply H.
  - apply Forall_forall. intros i _ y. apply getitem_elem_of.
Qed.

(** What [retrieve_tools] returns on a readable catalog. *)
Lemma retrieve_tools_result (nearest : string → Z → list Z)
    (tools : list Tool) (query : string) (top_k : Z) (use_filters : bool) r :
  retrieve_tools nearest (Some tools) query top_k use_filters = Some r →
  (length r ≤ 1)%nat ∧ (∀ t, t ∈ r → t ∈ tools) ∧
  (use_filters = true → has_filters (extract_filters query) = true →
   ∀ t, t ∈ r → t ∈ apply_metadata_filters tools (extract_filters query)).
Proof.
  unfold retrieve_tools. cbn [mbind option_bind].
  set (filters := if use_filters then _ else _).
  destruct (has_filters filters) eqn:Hf.
  - assert (∀ t, t ∈ apply_metadata_filters tools filters → t ∈ tools)
      as Hsub.
    { intros t. rewrite apply_metadata_filters_passes.
      rewrite list_elem_of_In, filter_In, <- list_elem_of_In. tauto. }
    destruct (apply_metadata_filters tools filters) as [|f fs] eqn:Hfs.
    + intros [= <-]. split_and!; [simpl; lia|..];
        by intros; exfalso; eapply elem_of_nil.
    + destruct (subset_search_value nearest query (f :: fs) tools 1 Hsub)
        as (r' & Hr' & Hin & Hlen & _).
      rewrite Hr'. intros [= <-]. split_and!.
      * apply Hlen. lia.
      * intros t Ht. by apply Hsub, Hin.
      * intros -> _ t Ht. subst filters. rewrite Hfs. by apply Hin.
  - destruct (mapM (PyList.getitem tools) (nearest query top_k))
      as [results|] eqn:Hm; [|done].
    cbn [option_bind]. intros [= <-]. split_and!.
    + pose proof (slice_to_length 1 results). lia.
    + intros t Ht%slice_to_subseteq.
      by apply (mapM_getitem_elem_of _ _ _ Hm).
    + intros -> Hf'. subst filters. congruence.
Qed.



(** X9.  Without filters the tools of all ranked positions are looked
    up before the first is kept: a position outside the catalog raises
    wherever it stands in the ranking, and the padding position -1
    stands for the last entry of the catalog. *)
Theorem unfiltered_retrieval_looks_up_every_position
    (nearest : string → Z → list Z) (tools : list Tool) (query : string)
    (top_k : Z) :
  (∀ i, i ∈ nearest query top_k →
        (i < - Z.of_nat (length tools) ∨ Z.of_nat (length tools) ≤ i) →
        retrieve_tools nearest (Some tools) query top_k false = None) ∧
  (∀ rest last_tool,
        nearest query top_k = -1 :: rest → last tools = Some last_tool →
        Forall (λ i, - Z.of_nat (length tools) ≤ i < Z.of_nat (length tools))
          rest →
        retrieve_tools nearest (Some tools) query top_k false
        = Some [last_tool]).
Proof.
  assert (∀ i, (i < - Z.of_nat (length tools) ∨ Z.of_nat (length tools) ≤ i) →
               PyList.getitem tools i = None) as Hout.
  { intros i Hi. unfold PyList.getitem.
    destruct (Z.leb_spec 0 i).
    - apply lookup_ge_None. lia.
    - destruct (Z.leb_spec 0 (Z.of_nat (length tools) + i)); [lia|done]. }
  assert (∀ i, - Z.of_nat (length tools) ≤ i < Z.of_nat (length tools) →
               is_Some (PyList.getitem tools i)) as Hin.
  { intros i Hi. unfold PyList.getitem.
    destruct (Z.leb_spec 0 i).
    - apply lookup_lt_is_Some. lia.
    - destruct (Z.leb_spec 0 (Z.of_nat (length tools) + i)); [|lia].
      apply lookup_lt_is_Some. lia. }
  unfold retrieve_tools. cbn [mbind option_bind has_filters no_filters
    f_voltage f_torque f_ip_rating f_application_type has_key orb].
  split.
  - intros i Hi Hrange.
    assert (mapM (PyList.getitem tools) (nearest query top_k) = None) as ->;
      [|done].
    apply mapM_None, Exists_exists. exists i. split; [done|by apply Hout].
  - intros rest last_tool -> Hlast Hrest.
    assert (is_Some (mapM (PyList.getitem tools) rest)) as [rs Hrs].
    { apply mapM_is_Some. eapply Forall_impl; [exact Hrest|].
      intros i Hi. by apply Hin. }
    cbn [mapM]. rewrite Hrs.
    assert (PyList.getitem tools (-1) = Some last_tool) as ->.
    { rewrite last_lookup in Hlast. unfold PyList.getitem.
      destruct tools as [|t tools']; [done|].
      assert ((0 <=? Z.of_nat (length (t :: tools')) + -1) = true) as ->
        by (apply Z.leb_le; simpl; lia).
      cbn [Z.leb]. rewrite <- Hlast. f_equal. simpl. lia. }
    done.
Qed.

Lemma unfiltered_retrieval_witness :
  retrieve_tools (λ _ _, [-1; 0; 2]) (Some sample_catalog) "nutrunner" 3 false
  = Some [sample_tool "Verification System" "Verification"
            "Quality / Verification" "230V AC" (Some JNaN) "IP40"].
Proof.
  apply (proj2 (unfiltered_retrieval_looks_up_every_position
                  (λ _ _, [-1; 0; 2]) sample_catalog "nutrunner" 3)
           [0; 2]).
  - reflexivity.
  - reflexivity.
  - repeat constructor; simpl; lia.
Defined.

(** ** Clarification: decision, cache and payloads (clarification.py) *)

(** X10.  With no result, or with more than three, the decision is to
    clarify, whatever the query, the filters and the keywords. *)
Theorem no_or_many_results_always_clarify
    (tools_json : option (list Tool)) (cache : gset string) (query : string)
    (filters : Filters) (results : list Tool) :
  length results = 0%nat ∨ (3 < length results)%nat →
  (needs_clarification tools_json cache query filters results).1 = true.
Proof.
  intros Hn. rewrite needs_clarification_answer.
  destruct (Nat.ltb_spec 3 (length results)) as [Hlt|Hge].
  - assert ((length results <=? 3)%nat = false) as ->
      by (apply Nat.leb_gt; lia).
    rewrite andb_false_r.
    destruct (_ && (0 <? length results)%nat); [done|].
    destruct (_ && negb (has_filters filters)); [done|].
    by destruct (_ && negb (has_keyword _ _)).
  - assert (length results = 0%nat) as -> by lia.
    cbn [Nat.ltb Nat.leb Nat.eqb]. rewrite !andb_false_r.
    destruct (_ && negb (has_filters filters)); [done|].
    by destruct (_ && negb (has_keyword _ _)).
Qed.

Lemma no_or_many_results_witness :
  (needs_clarification (Some sample_catalog) ∅ "18V cordless nutrunner"
     (extract_filters "18V cordless nutrunner")
     (sample_catalog ++ sample_catalog)).1 = true.
Proof.
  apply no_or_many_results_always_clarify. right. simpl. lia.
Defined.

(** X11.  The keyword cache: a second call of [_load_tool_names]
    returns what the first returned and leaves the cache as the first
    left it; once the cache holds a keyword, the result is the cache
    whatever the catalog file has become; after [_clear_cache] the
    keywords are read from the file again, and none of them is a
    stop-word. *)
Theorem load_tool_names_cache_is_stable
    (tools_json : option (list Tool)) (cache : gset string) :
  _load_tool_names tools_json (_load_tool_names tools_json cache).2
    = _load_tool_names tools_json cache ∧
  (cache ≠ ∅ →
   ∀ other_file, _load_tool_names other_file cache = (cache, cache)) ∧
  (∀ tools w, w ∈ (_load_tool_names (Some tools) _clear_cache).1 →
              w ∈ tool_keywords_of tools ∧ w ∉ common_words).
Proof.
  unfold _load_tool_names, _clear_cache. split_and!.
  - destruct (decide (cache ≠ ∅)) as [Hne|He]; cbn [fst snd].
    + by rewrite decide_True.
    + destruct tools_json as [tools|]; cbn [fst snd].
      * destruct (decide (tool_keywords_of tools ≠ ∅)); done.
      * by rewrite decide_False.
  - intros Hne other_file. by rewrite decide_True.
  - intros tools w. rewrite decide_False by (intros H; by apply H).
    cbn [fst]. intros Hw. split; [done|].
    by apply tool_keywords_of_spec in Hw as [? _].
Qed.

Lemma load_tool_names_cache_witness :
  _load_tool_names None {[ "nutrunner" ]} = ({[ "nutrunner" ]}, {[ "nutrunner" ]}).
Proof.
  apply (proj1 (proj2 (load_tool_names_cache_is_stable None {[ "nutrunner" ]}))).
  intros H. assert ("nutrunner" ∈ ({[ "nutrunner" ]} : gset string)) as Hin
    by (by apply elem_of_singleton).
  rewrite H in Hin. by apply not_elem_of_empty in Hin.
Defined.

(** X12.  Every payload of [generate_clarification_question] has the
    status "needs_clarification" and at most two questions. *)
Theorem clarification_payload_has_at_most_two_questions
    (query : string) (filters : Filters) (filtered_tools all_tools : list Tool) :
  status (generate_clarification_question query filters filtered_tools
            all_tools) = "needs_clarification" ∧
  (length (questions (generate_clarification_question query filters
                        filtered_tools all_tools)) ≤ 2)%nat.
Proof.
  unfold generate_clarification_question.
  destruct (length filtered_tools =? 0)%nat; [split; simpl; [done|lia]|].
  destruct (3 <? length filtered_tools)%nat.
  - split; [done|]. rewrite too_many_payload_questions, length_take. lia.
  - destruct (_ && negb (has_filters filters)); [split; simpl; [done|lia]|].
    split; [done|]. cbn [questions]. rewrite length_take. lia.
Qed.

Lemma sorted_set_spec (l : list string) :
  Sorted String.le (sorted_set l) ∧ NoDup (sorted_set l) ∧
  ∀ x, x ∈ sorted_set l ↔ x ∈ l.
Proof.
  unfold sorted_set. split_and!.
  - apply (Sorted_merge_sort String.le).
  - rewrite merge_sort_Permutation. apply NoDup_remove_dups.
  - intros x. rewrite merge_sort_Permutation. apply elem_of_remove_dups.
Qed.

(** X13.  In the no-match payload the categories and the application
    types are those of the whole catalog, "N/A" standing for a missing
    one, each listed once and in ascending order of their characters;
    the examples are the four fixed queries. *)
Theorem no_match_payload_lists_the_catalog
    (query : string) (filters : Filters) (all_tools : list Tool) :
  ∃ categories types,
    suggestions (generate_clarification_question query filters [] all_tools)
    = <["examples" := JStr <$> examples_no_match]>
        (<["application_types" := JStr <$> types]>
           (<["categories" := JStr <$> categories]> ∅)) ∧
    Sorted String.le categories ∧ NoDup categories ∧
    (∀ c, c ∈ categories ↔
          ∃ t, t ∈ all_tools ∧ c = default "N/A" (category t)) ∧
    Sorted String.le types ∧ NoDup types ∧
    (∀ a, a ∈ types ↔
          ∃ t, t ∈ all_tools ∧ a = default "N/A" (application_type t)).
Proof.
  exists (sorted_set ((λ t, default "N/A" (category t)) <$> all_tools)),
    (sorted_set ((λ t, default "N/A" (application_type t)) <$> all_tools)).
  split; [reflexivity|].
  destruct (sorted_set_spec ((λ t, default "N/A" (category t)) <$> all_tools))
    as (Hs1 & Hn1 & Hm1).
  destruct (sorted_set_spec
              ((λ t, default "N/A" (application_type t)) <$> all_tools))
    as (Hs2 & Hn2 & Hm2).
  split_and!; try done.
  - intros c. rewrite Hm1, list_elem_of_fmap.
    split; intros (t & ? & ?); by exists t.
  - intros a. rewrite Hm2, list_elem_of_fmap.
    split; intros (t & ? & ?); by exists t.
Qed.

Lemma no_match_payload_witness :
  ∃ categories types,
    suggestions (generate_clarification_question "drill" no_filters []
                   sample_catalog)
    = <["examples" := JStr <$> examples_no_match]>
        (<["application_types" := JStr <$> types]>
           (<["categories" := JStr <$> categories]> ∅)) ∧
    "Nutrunner" ∈ categories ∧ NoDup categories.
Proof.
  destruct (no_match_payload_lists_the_catalog "drill" no_filters
              sample_catalog) as (categories & types & Hs & _ & Hn & Hm & _).
  exists categories, types. split; [exact Hs|]. split; [|exact Hn].
  apply Hm. eexists. split; [left|reflexivity].
Defined.

(** X14.  The fallback payload, given for one to three results unless
    the query is a single word without filters, asks only for keys the
    filters lack: the torque, then the application type, and the
    voltage only when one of those two is present; it has no
    suggestion, and no question exactly when the three keys are
    present.  The IP rating is never asked for. *)
Theorem fallback_payload_asks_for_missing_keys
    (query : string) (filters : Filters) (filtered_tools all_tools : list Tool) :
  (1 ≤ length filtered_tools ≤ 3)%nat →
  (length (PyStr.split query) <? 2)%nat && negb (has_filters filters) = false →
  suggestions (generate_clarification_question query filters filtered_tools
                 all_tools) = ∅ ∧
  (∀ q, q ∈ questions (generate_clarification_question query filters
                         filtered_tools all_tools) →
        (q = "What torque range do you require (in Nm)?" ∧
         f_torque filters = None) ∨
        (q = "Is this for automation or manual use?" ∧
         f_application_type filters = None) ∨
        (q = "Do you have any voltage preference (e.g., 18V, 230V, 400V)?" ∧
         f_voltage filters = None ∧
         ¬ (f_torque filters = None ∧ f_application_type filters = None))) ∧
  (questions (generate_clarification_question query filters filtered_tools
                all_tools) = [] ↔
   has_key (f_torque filters) = true ∧
   has_key (f_application_type filters) = true ∧
   has_key (f_voltage filters) = true).
Proof.
  intros [Hlo Hhi] Hvague. unfold generate_clarification_question.
  assert ((length filtered_tools =? 0)%nat = false) as ->
    by (apply Nat.eqb_neq; lia).
  assert ((3 <? length filtered_tools)%nat = false) as ->
    by (apply Nat.ltb_ge; lia).
  rewrite Hvague. cbn [suggestions questions].
  destruct (f_torque filters), (f_application_type filters),
    (f_voltage filters); cbn [has_key negb app take];
    (split_and!;
     [ reflexivity
     | intros q Hq;
       repeat (apply elem_of_cons in Hq as [->|Hq];
               [intuition (auto; congruence)|]);
       by apply elem_of_nil in Hq
     | split; [try discriminate; auto|intros (? & ? & ?); done] ]).
Qed.

Lemma fallback_payload_witness :
  questions (generate_clarification_question "cordless nutrunner 18V"
               (extract_filters "cordless nutrunner 18V")
               (take 1 sample_catalog) sample_catalog)
  ≠ [] ∧
  suggestions (generate_clarification_question "cordless nutrunner 18V"
                 (extract_filters "cordless nutrunner 18V")
                 (take 1 sample_catalog) sample_catalog) = ∅.
Proof.
  destruct (fallback_payload_asks_for_missing_keys "cordless nutrunner 18V"
              (extract_filters "cordless nutrunner 18V")
              (take 1 sample_catalog) sample_catalog)
    as (Hs & _ & Hq).
  - simpl. lia.
  - vm_compute. reflexivity.
  - split; [|exact Hs]. intros He. apply Hq in He as [Ht _].
    vm_compute in Ht. discriminate.
Defined.

(** ** Session store: sweeps and lookups (session_manager.py) *)

Lemma expired_mono now now' s :
  now ≤ now' → expired now s = true → expired now' s = true.
Proof. rewrite !expired_iff. lia. Qed.

(** X15.  The sweep of expired sessions keeps exactly the sessions idle
    for at most 30 minutes, unchanged; sweeping twice at one time is
    sweeping once, and a later sweep makes an earlier one redundant. *)
Theorem cleanup_keeps_exactly_the_live_sessions
    (now : Z) (sessions : gmap string Session) :
  (∀ sid s, cleanup_expired_sessions now sessions !! sid = Some s ↔
            sessions !! sid = Some s ∧
            now - last_accessed s ≤ SESSION_TIMEOUT) ∧
  cleanup_expired_sessions now (cleanup_expired_sessions now sessions)
    = cleanup_expired_sessions now sessions ∧
  (∀ earlier, earlier ≤ now →
     cleanup_expired_sessions now (cleanup_expired_sessions earlier sessions)
     = cleanup_expired_sessions now sessions).
Proof.
  assert (∀ earlier, earlier ≤ now →
     cleanup_expired_sessions now (cleanup_expired_sessions earlier sessions)
     = cleanup_expired_sessions now sessions) as Hlater.
  { intros earlier Hle. apply map_eq. intros k.
    rewrite !cleanup_lookup. destruct (sessions !! k) as [s|]; [|done].
    destruct (expired earlier s) eqn:He; [|done].
    by rewrite (expired_mono _ _ _ Hle He). }
  split_and!.
  - intros sid s. rewrite cleanup_lookup.
    destruct (sessions !! sid) as [s'|]; [|split; [done|by intros [? _]]].
    destruct (expired now s') eqn:He.
    + apply expired_iff in He. split; [done|]. intros [[= ->] ?]. lia.
    + split.
      * intros [= ->]. split; [done|].
        apply not_true_iff_false in He. rewrite expired_iff in He. lia.
      * by intros [[= ->] _].
  - apply Hlater. lia.
  - exact Hlater.
Qed.

Lemma cleanup_keeps_live_witness :
  cleanup_expired_sessions 1800000001
    (cleanup_expired_sessions 5 {[ "abc" := stale_session ]})
  = cleanup_expired_sessions 1800000001 {[ "abc" := stale_session ]}.
Proof.
  apply (cleanup_keeps_exactly_the_live_sessions 1800000001
           {[ "abc" := stale_session ]}).
  lia.
Defined.

(** The result of a lookup in terms of the swept store. *)
Lemma get_session_unfold now now1 now2 sid (sessions : gmap string Session) :
  get_session now now1 now2 sid sessions =
  let found :=
    match cleanup_expired_sessions now sessions !! sid with
    | Some s => touch now1 s
    | None => (create_session now1 now2 sid ∅).1
    end in
  (found, <[sid := found]> (cleanup_expired_sessions now sessions)).
Proof.
  unfold get_session.
  by destruct (cleanup_expired_sessions now sessions !! sid).
Qed.

(** X16.  A session obtained from a lookup is found again by the next
    lookup, provided the next sweep comes within 30 minutes of its last
    access: it comes back with the same history, filters, last query
    and counter, and only its last access moves. *)
Theorem lookup_finds_the_session_again
    (now now1 now2 later later1 later2 : Z) (sid : string)
    (sessions : gmap string Session) :
  later - last_accessed (get_session now now1 now2 sid sessions).1
    ≤ SESSION_TIMEOUT →
  (get_session later later1 later2 sid
     (get_session now now1 now2 sid sessions).2).1
  = touch later1 (get_session now now1 now2 sid sessions).1.
Proof.
  intros Hlive. rewrite (get_session_unfold later).
  rewrite get_session_unfold in *. cbn [fst snd] in *.
  set (found := match _ with Some s => touch now1 s | None => _ end) in *.
  rewrite cleanup_lookup, lookup_insert_eq.
  assert (expired later found = false) as ->; [|done].
  apply not_true_iff_false. rewrite expired_iff. lia.
Qed.

Lemma lookup_finds_again_witness :
  (get_session 20 21 22 "xyz" (get_session 10 11 12 "xyz" ∅).2).1
  = touch 21 (get_session 10 11 12 "xyz" ∅).1.
Proof.
  apply (lookup_finds_the_session_again 10 11 12 20 21 22 "xyz" ∅).
  vm_compute. discriminate.
Defined.

(** ** Session store: recording a turn (session_manager.py) *)








(** ** Session store: the counter and the statistics *)








Lemma needing_le_turns (values : list Session) :
  Forall session_ok values →
  (length (List.filter (λ s, (0 <? clarification_count s)%Z) values)
   ≤ sum_list ((λ s, length (conversation_history s)) <$> values))%nat.
Proof.
  induction 1 as [|s values [_ Hs] _ IH]; [simpl; lia|].
  rewrite fmap_cons. cbn [List.filter sum_list_with].
  unfold id at 1.
  destruct (Z.ltb_spec 0 (clarification_count s)); cbn [length]; lia.
Qed.

Lemma filter_length_le {A} (p : A → bool) l :
  (length (List.filter p l) ≤ length l)%nat.
Proof. induction l as [|x l IH]; simpl; [lia|]. destruct (p x); simpl; lia. Qed.

(** X20.  In the statistics the sessions that needed a clarification
    are at most the active sessions, and, the counters being bounded by
    the histories, at most the recorded turns; an empty store has only
    zeros. *)
Theorem session_stats_are_bounded (sessions : gmap string Session) :
  (sessions_needing_clarification (get_session_stats sessions)
   ≤ active_sessions (get_session_stats sessions))%nat ∧
  (store_ok sessions →
   (sessions_needing_clarification (get_session_stats sessions)
    ≤ total_conversations (get_session_stats sessions))%nat) ∧
  get_session_stats ∅
  = {| active_sessions := 0; total_conversations := 0;
       sessions_needing_clarification := 0 |}.
Proof.
  unfold get_session_stats.
  cbn [sessions_needing_clarification active_sessions total_conversations].
  split_and!.
  - etrans; [apply filter_length_le|].
    by rewrite length_fmap, length_map_to_list.
  - intros Hok. apply needing_le_turns. apply Forall_forall.
    intros s ([k s'] & -> & Hin)%list_elem_of_fmap.
    apply elem_of_map_to_list in Hin. by eapply Hok.
  - by rewrite map_to_list_empty, map_size_empty.
Qed.

Lemma session_stats_witness :
  (sessions_needing_clarification
     (get_session_stats {[ "abc" := stale_session ]})
   ≤ total_conversations (get_session_stats {[ "abc" := stale_session ]}))%nat.
Proof.
  apply (session_stats_are_bounded {[ "abc" := stale_session ]}).
  intros sid s Hs. apply lookup_singleton_Some in Hs as [_ <-].
  unfold session_ok. simpl. lia.
Defined.

(** X21.  Clearing a session removes it and nothing else, and clearing
    an unknown id changes nothing; the next lookup of a cleared id
    creates a new session, however recent the cleared one was. *)
Theorem clear_session_forgets_the_session
    (sid : string) (sessions : gmap string Session) :
  clear_session sid sessions !! sid = None ∧
  (∀ other, other ≠ sid →
     clear_session sid sessions !! other = sessions !! other) ∧
  (sessions !! sid = None → clear_session sid sessions = sessions) ∧
  (∀ now now1 now2,
     (get_session now now1 now2 sid (clear_session sid sessions)).1
     = (create_session now1 now2 sid ∅).1).
Proof.
  unfold clear_session. split_and!.
  - apply lookup_delete_eq.
  - intros other Hne. by apply lookup_delete_ne.
  - apply delete_id.
  - intros now now1 now2. rewrite get_session_unfold. cbn [fst].
    by rewrite cleanup_lookup, lookup_delete_eq.
Qed.

Lemma clear_session_witness :
  clear_session "xyz" {[ "abc" := stale_session ]}
  = {[ "abc" := stale_session ]}.
Proof.
  apply (clear_session_forgets_the_session "xyz"
           {[ "abc" := stale_session ]}).
  by apply lookup_singleton_ne.
Defined.

(** ** The context of a query (session_manager.py) *)

Lemma sapp_same_inv q x : q +:+ x = q → x = EmptyString.
Proof.
  intros H. assert (String.length (q +:+ x) = String.length q) as Hlen
    by (by rewrite H).
  rewrite sapp_length in Hlen. destruct x; [done|]. simpl in Hlen. lia.
Qed.

Lemma last_two_spec {A} (l : list A) :
  l ≠ [] → last_two l ≠ [] ∧ (length (last_two l) ≤ 2)%nat ∧
           ∃ older, l = older ++ last_two l.
Proof.
  intros Hne. unfold last_two. split_and!.
  - intros H. apply (f_equal length) in H. rewrite length_drop in H.
    destruct l; [done|]. simpl in H. lia.
  - rewrite length_drop. lia.
  - exists (take (length l - 2) l). by rewrite take_drop.
Qed.

(** X22.  [merge_context] returns the query unchanged exactly when the
    session has no history.  Otherwise it appends a bracketed context
    to the query: the stored filters when there are some, then the
    queries of the last two turns at most, oldest first, joined by
    " | ". *)
Theorem merge_context_appends_the_last_two_queries
    (json_dumps : Filters → string) (session : Session) (query : string) :
  (merge_context json_dumps session query = query ↔
   conversation_history session = []) ∧
  (conversation_history session ≠ [] →
   ∃ older recent,
     conversation_history session = older ++ recent ∧
     (1 ≤ length recent ≤ 2)%nat ∧
     merge_context json_dumps session query =
       query +:+ " [Context: " +:+
       String.concat " | "
         ((if has_filters (extracted_filters session)
           then ["Previous preferences: "
                 +:+ json_dumps (extracted_filters session)]
           else []) ++
          ((λ i, "Previous query: " +:+ i_query i) <$> recent))
       +:+ "]").
Proof.
  assert (conversation_history session ≠ [] →
   ∃ older recent,
     conversation_history session = older ++ recent ∧
     (1 ≤ length recent ≤ 2)%nat ∧
     merge_context json_dumps session query =
       query +:+ " [Context: " +:+
       String.concat " | "
         ((if has_filters (extracted_filters session)
           then ["Previous preferences: "
                 +:+ json_dumps (extracted_filters session)]
           else []) ++
          ((λ i, "Previous query: " +:+ i_query i) <$> recent))
       +:+ "]") as Hctx.
  { intros Hne. destruct (last_two_spec _ Hne) as (Hrec & Hlen & older & Hold).
    exists older, (last_two (conversation_history session)).
    split; [done|]. split.
    { destruct (last_two (conversation_history session)); [done|].
      simpl in *. lia. }
    unfold merge_context.
    destruct (conversation_history session) as [|i h] eqn:Hh; [done|].
    destruct (last_two (i :: h)) as [|r rs] eqn:Hl; [done|].
    by destruct (has_filters (extracted_filters session)). }
  split; [|exact Hctx]. split.
  - intros Heq. destruct (conversation_history session) as [|i h] eqn:Hh;
      [done|].
    destruct Hctx as (older & recent & _ & _ & Hm); [done|].
    rewrite Hm in Heq. apply sapp_same_inv in Heq. discriminate.
  - intros Hh. unfold merge_context. by rewrite Hh.
Qed.

Lemma merge_context_witness :
  merge_context (λ _, "{}") stale_session "18V"
  = "18V [Context: Previous preferences: {} | Previous query: nutrunner]".
Proof.
  destruct (merge_context_appends_the_last_two_queries (λ _, "{}")
              stale_session "18V") as [_ H].
  destruct H as (older & recent & Hh & Hlen & ->); [discriminate|].
  destruct recent as [|r recent]; [simpl in Hlen; lia|].
  destruct older as [|o older].
  - injection Hh as <- <-. vm_compute. reflexivity.
  - apply (f_equal length) in Hh. rewrite length_app in Hh.
    simpl in Hh. lia.
Defined.

(** ** The turn of the agent (crew_setup.py) *)

Lemma filter_length_one {A} (p : A → bool) l :
  (length l ≤ 1)%nat → (length (List.filter p l) ≤ 1)%nat.
Proof. intros H. pose proof (filter_length_le p l). lia. Qed.

(** What [run_agent] does with the retrieved tools. *)
Lemma run_agent_outcome (nearest : string → Z → list Z) (catalog : list Tool)
    (kickoff : string → list Tool → Filters → string)
    (json_loads : string → option json) (cache : gset string)
    (user_query : string) (session : option Session) response cache' :
  run_agent nearest (Some catalog) kickoff json_loads cache user_query session
    = Some (response, cache') →
  ∃ tools,
    (length tools ≤ 1)%nat ∧ (∀ t, t ∈ tools → t ∈ catalog) ∧
    let filters :=
      merged_filters (_load_tool_names (Some catalog) cache).1 user_query
        session in
    (response = RClarification
                  (generate_clarification_question user_query filters tools
                     catalog) filters) ∨
    (length tools = 1%nat ∧
     response = extract_json json_loads (kickoff user_query tools filters)).
Proof.
  unfold run_agent.
  destruct (_load_tool_names (Some catalog) cache) as [kw c1]. cbn [fst].
  destruct (retrieve_tools nearest (Some catalog)
              (enhanced_query kw user_query session) 3 true)
    as [found|] eqn:Hr; [|done].
  cbn [mbind option_bind].
  apply retrieve_tools_result in Hr as (Hlen & Hin & _).
  set (mf := merged_filters kw user_query session).
  set (tools := if has_filters mf && _ then _ else found).
  assert ((length tools ≤ 1)%nat ∧ ∀ t, t ∈ tools → t ∈ catalog) as [Hl Hi].
  { subst tools. destruct (_ && _); [|done].
    destruct found as [|f fs]; [done|].
    rewrite apply_metadata_filters_passes. split.
    - by apply filter_length_one.
    - intros t Ht. apply list_elem_of_In, filter_In in Ht as [Ht _].
      by apply Hin, list_elem_of_In. }
  destruct (needs_clarification (Some catalog) c1 user_query mf tools)
    as [clarify c2] eqn:Hn.
  destruct clarify; intros [= <- <-]; exists tools;
    (split; [done|]); (split; [done|]).
  - by left.
  - right. split; [|done]. destruct tools as [|t [|t' ts]]; [|done|].
    + pose proof (needs_clarification_no_result (Some catalog) c1 user_query
                    mf) as H. rewrite Hn in H. discriminate.
    + simpl in Hl. lia.
Qed.

(** X23.  [run_agent] works with at most one tool of the catalog: the
    recommender is called with exactly one, and a clarification is
    built from one tool or none, so that the payload for more than
    three results is never the one it returns. *)
Theorem run_agent_never_has_more_than_one_tool
    (nearest : string → Z → list Z) (catalog : list Tool)
    (kickoff : string → list Tool → Filters → string)
    (json_loads : string → option json) (cache : gset string)
    (user_query : string) (session : option Session)
    (response : Response) (cache' : gset string) :
  run_agent nearest (Some catalog) kickoff json_loads cache user_query session
    = Some (response, cache') →
  ∃ tools,
    (length tools ≤ 1)%nat ∧ (∀ t, t ∈ tools → t ∈ catalog) ∧
    let filters :=
      merged_filters (_load_tool_names (Some catalog) cache).1 user_query
        session in
    (response = RClarification
                  (generate_clarification_question user_query filters tools
                     catalog) filters) ∨
    (length tools = 1%nat ∧
     response = extract_json json_loads (kickoff user_query tools filters)).
Proof. apply run_agent_outcome. Qed.

Lemma run_agent_one_tool_witness :
  ∃ tools : list Tool,
    (length tools ≤ 1)%nat ∧ ∀ t, t ∈ tools → t ∈ sample_catalog.
Proof.
  destruct (run_agent_never_has_more_than_one_tool (λ _ _, [0; 1; 2; 3])
              sample_catalog (λ _ _ _, EmptyString) (λ _, None) ∅
              "12V cordless" None
              (RClarification
                 (generate_clarification_question "12V cordless"
                    (extract_filters "12V cordless") [] sample_catalog)
                 (extract_filters "12V cordless"))
              (_load_tool_names (Some sample_catalog) ∅).2)
    as (tools & Hlen & Hin & _).
  - vm_compute. reflexivity.
  - by exists tools.
Defined.

(** X24.  A session that was just created changes nothing: the agent
    answers a query in it as it answers the query without a session. *)
Theorem new_session_is_no_session
    (nearest : string → Z → list Z) (tools_json : option (list Tool))
    (kickoff : string → list Tool → Filters → string)
    (json_loads : string → option json) (cache : gset string)
    (user_query : string) (now1 now2 : Z) (sid : string)
    (sessions : gmap string Session) :
  run_agent nearest tools_json kickoff json_loads cache user_query
    (Some (create_session now1 now2 sid sessions).1)
  = run_agent nearest tools_json kickoff json_loads cache user_query None.
Proof.
  unfold run_agent. destruct (_load_tool_names tools_json cache) as [kw c1].
  reflexivity.
Qed.

(** X25.  Merging FilterSets, as the agent and the session store do:
    the empty FilterSet is neutral on both sides, merging is
    associative and merging a FilterSet with itself gives it back; a
    key of the later FilterSet keeps its value, a key missing there
    keeps the earlier value, and the result has a key exactly when one
    of the two has. *)
Theorem merge_filters_laws (a b c : Filters) :
  merge_filters no_filters a = a ∧
  merge_filters a no_filters = a ∧
  merge_filters (merge_filters a b) c = merge_filters a (merge_filters b c) ∧
  merge_filters a a = a ∧
  (∀ v, f_voltage b = Some v → f_voltage (merge_filters a b) = Some v) ∧
  (∀ t, f_torque b = Some t → f_torque (merge_filters a b) = Some t) ∧
  (∀ r, f_ip_rating b = Some r → f_ip_rating (merge_filters a b) = Some r) ∧
  (∀ k, f_application_type b = Some k →
        f_application_type (merge_filters a b) = Some k) ∧
  (f_voltage b = None → f_voltage (merge_filters a b) = f_voltage a) ∧
  (f_torque b = None → f_torque (merge_filters a b) = f_torque a) ∧
  (f_ip_rating b = None → f_ip_rating (merge_filters a b) = f_ip_rating a) ∧
  (f_application_type b = None →
   f_application_type (merge_filters a b) = f_application_type a) ∧
  has_filters (merge_filters a b) = has_filters a || has_filters b.
Proof.
  destruct a as [av at_ ai aa], b as [bv bt bi ba], c as [cv ct ci ca].
  unfold merge_filters, has_filters, no_filters.
  cbn [f_voltage f_torque f_ip_rating f_application_type].
  split_and!; try (intros ? ->; reflexivity); try (intros ->; reflexivity).
  - by destruct av, at_, ai, aa.
  - done.
  - by destruct bv, bt, bi, ba, cv, ct, ci, ca.
  - by destruct av, at_, ai, aa.
  - by destruct av, at_, ai, aa, bv, bt, bi, ba.
Qed.

Lemma merge_filters_witness :
  f_voltage (merge_filters (extract_filters "18V cordless")
               (extract_filters "36V")) = Some "36V" ∧
  f_application_type (merge_filters (extract_filters "18V cordless")
                        (extract_filters "36V")) = Some "Manual / Portable".
Proof.
  destruct (merge_filters_laws (extract_filters "18V cordless")
              (extract_filters "36V") no_filters)
    as (_ & _ & _ & _ & Hv & _ & _ & _ & _ & _ & _ & Ha & _).
  split.
  - apply Hv. vm_compute. reflexivity.
  - rewrite Ha; vm_compute; reflexivity.
Defined.

Lemma shallow_object_braces m :
  shallow_object m →
  all_chars (λ c, negb (bool_decide (c = JsonRegex.lbrace))) m = false ∧
  all_chars (λ c, negb (bool_decide (c = JsonRegex.rbrace))) m = false.
Proof.
  intros (b & _ & ->). split; [done|]. simpl.
  rewrite all_chars_app. simpl. by rewrite andb_false_r.
Qed.

(** X26.  A text of the recommender without an opening brace, or
    without a closing brace, is answered by the payload "No JSON found
    in response" that carries the text; [json.loads] is not called. *)
Theorem text_without_braces_has_no_json
    (json_loads : string → option json) (result_str : string) :
  all_chars (λ c, negb (bool_decide (c = JsonRegex.lbrace))) result_str = true ∨
  all_chars (λ c, negb (bool_decide (c = JsonRegex.rbrace))) result_str = true →
  extract_json json_loads result_str
  = RError "No JSON found in response" result_str.
Proof.
  intros Hno. unfold extract_json.
  assert (PyStr.re_search JsonRegex.object_at result_str = None) as ->;
    [|done].
  apply search_object_none. intros pre m post -> Hm.
  apply shallow_object_braces in Hm as [Hl Hr].
  rewrite !all_chars_app, Hl, Hr in Hno.
  rewrite !andb_false_l, !andb_false_r in Hno. by destruct Hno.
Qed.

Lemma text_without_braces_witness :
  extract_json (λ _, Some JsNull) "I recommend the Cordless Nutrunner A }"
  = RError "No JSON found in response"
      "I recommend the Cordless Nutrunner A }".
Proof.
  apply (text_without_braces_has_no_json (λ _, Some JsNull)
           "I recommend the Cordless Nutrunner A }").
  left. vm_compute. reflexivity.
Defined.

(** ** The chat endpoint (main.py) *)








